(** * Stock analysis client: the controller of [src/App.jsx]

    A shallow embedding of the [StockAnalysisApp] component: its React state,
    its event handlers ([analyzeStock], [checkRateLimit], [checkBackendHealth],
    [handleKeyPress], the countdown effect) and the pure parts of its render
    function (strength tier, guidance blocks, recommendation style).

    Asynchronous handlers are cut at each [await]: the part before the
    [fetch] is one function, the part that runs when the reply arrives is
    its [_resume] companion, and the suspended frames are kept in the world
    as a list of tasks. *)

From Stdlib Require Import ZArith List Bool Lia String Ascii.
From Stdlib Require Import DecimalString.
From Stdlib Require DecimalZ.
Import ListNotations.
Open Scope Z_scope.

(** ** JavaScript strings *)

Module Js.

(** A JS string is a sequence of UTF-16 code units. *)
Definition jsstring := list N.

(** An ASCII literal of the source, as code units. *)
Definition lit (s : string) : jsstring :=
  map N_of_ascii (list_ascii_of_string s).

(** [a === b] on strings. *)
Fixpoint eqb (a b : jsstring) : bool :=
  match a, b with
  | [], [] => true
  | x :: a', y :: b' => N.eqb x y && eqb a' b'
  | _, _ => false
  end.

(** WhiteSpace and LineTerminator code points, the ones
    [String.prototype.trim] strips. *)
Definition isWhiteSpace (c : N) : bool :=
  (N.eqb c 9 || N.eqb c 10 || N.eqb c 11 || N.eqb c 12 || N.eqb c 13
   || N.eqb c 32 || N.eqb c 160 || N.eqb c 5760
   || (N.leb 8192 c && N.leb c 8202)
   || N.eqb c 8232 || N.eqb c 8233 || N.eqb c 8239 || N.eqb c 8287
   || N.eqb c 12288 || N.eqb c 65279)%bool.

Fixpoint trimStart (s : jsstring) : jsstring :=
  match s with
  | [] => []
  | c :: t => if isWhiteSpace c then trimStart t else s
  end.

Definition trimEnd (s : jsstring) : jsstring := rev (trimStart (rev s)).

(** [s.trim()] *)
Definition trim (s : jsstring) : jsstring := trimEnd (trimStart s).

Fixpoint startsWith (s p : jsstring) : bool :=
  match p, s with
  | [], _ => true
  | _ :: _, [] => false
  | y :: p', x :: s' => N.eqb x y && startsWith s' p'
  end.

(** [s.includes(p)] *)
Fixpoint includes (s p : jsstring) : bool :=
  startsWith s p ||
  match s with
  | [] => false
  | _ :: t => includes t p
  end.

(** A string is falsy exactly when it is empty. *)
Definition truthy (s : jsstring) : bool :=
  match s with [] => false | _ :: _ => true end.

End Js.

Abbreviation jsstring := Js.jsstring.

(** ** The render function's pure parts *)

(** The analysis payload of a successful [/analyze] reply; only the two
    fields the classification reads are kept, the others are displayed as
    they are. *)
Record Analysis := {
  consensus_recommendation : jsstring;
  consensus_confidence : Z
}.

Definition BUY : jsstring := Js.lit "BUY".
Definition HOLD : jsstring := Js.lit "HOLD".
Definition SELL : jsstring := Js.lit "SELL".

(** The label of the strength badge: STRONG, MODERATE-STRONG, MODERATE,
    WEAK and STRONG CAUTION in the source, each followed by
    " Recommendation". *)
Inductive Tier :=
| STRONG | MODERATE_STRONG | MODERATE | WEAK | STRONG_CAUTION.

(** The conditional chain of the badge. *)
Definition strengthTier (confidence : Z) : Tier :=
  if confidence >=? 75 then STRONG
  else if confidence >=? 60 then MODERATE_STRONG
  else if confidence >=? 45 then MODERATE
  else if confidence >=? 30 then WEAK
  else STRONG_CAUTION.

(** The table of spec section 4.4, as a relation between a tier and the
    confidence values it covers. *)
Definition spec_tier_range (t : Tier) (c : Z) : Prop :=
  match t with
  | STRONG => 75 <= c <= 100
  | MODERATE_STRONG => 60 <= c < 75
  | MODERATE => 45 <= c < 60
  | WEAK => 30 <= c < 45
  | STRONG_CAUTION => 0 <= c < 30
  end.

(** The five guidance blocks under "Clear Recommendation for You", named by
    their headings: STRONG BUY, STRONG HOLD, MODERATE HOLD, CONSIDER SELLING
    and STRONG SELL. *)
Inductive GuidanceBlock :=
| StrongBuy | StrongHold | ModerateHold | ConsiderSelling | StrongSell.

(** [{cond && block}]: the block is rendered when the condition holds. *)
Definition shown {A} (cond : bool) (block : A) : list A :=
  if cond then [block] else [].

(** The five conditionally rendered blocks, in document order. *)
Definition guidanceBlocks (a : Analysis) : list GuidanceBlock :=
  let c := consensus_confidence a in
  shown ((c >=? 75) && Js.eqb (consensus_recommendation a) BUY) StrongBuy
  ++ shown ((c >=? 60) && (c <? 75)) StrongHold
  ++ shown ((c >=? 45) && (c <? 60)) ModerateHold
  ++ shown ((c >=? 30) && (c <? 45)) ConsiderSelling
  ++ shown (c <? 30) StrongSell.

Inductive Icon := ThumbsUp | ThumbsDown | Info.

Record Style := {
  color : jsstring;
  bg : jsstring;
  icon : Icon
}.

Definition getRecommendationStyle (rec : jsstring) : Style :=
  if Js.eqb rec BUY || Js.eqb rec HOLD then
    {| color := Js.lit "text-green-400"; bg := Js.lit "bg-green-500/20";
       icon := ThumbsUp |}
  else if Js.eqb rec SELL then
    {| color := Js.lit "text-red-400"; bg := Js.lit "bg-red-500/20";
       icon := ThumbsDown |}
  else
    {| color := Js.lit "text-yellow-400"; bg := Js.lit "bg-yellow-500/20";
       icon := Info |}.

(** The three objects [getRecommendationStyle] can return. *)
Definition greenStyle : Style :=
  {| color := Js.lit "text-green-400"; bg := Js.lit "bg-green-500/20";
     icon := ThumbsUp |}.

Definition redStyle : Style :=
  {| color := Js.lit "text-red-400"; bg := Js.lit "bg-red-500/20";
     icon := ThumbsDown |}.

Definition yellowStyle : Style :=
  {| color := Js.lit "text-yellow-400"; bg := Js.lit "bg-yellow-500/20";
     icon := Info |}.

(** The border class of the recommendation card and of the badge. *)
Definition borderClass (rec : jsstring) : jsstring :=
  if Js.eqb rec BUY || Js.eqb rec HOLD
  then Js.lit "border-green-400/50"
  else Js.lit "border-red-400/50".

(** ** Wire data (spec section 6) *)

(** The body of a [/health] reply, and the object the client stores when
    the probe fails: [{ status: 'offline', error: err.message }]. The
    [error] property is called [offline_error] here, as the component's
    own [error] state takes the name. *)
Record HealthData := {
  status : jsstring;
  api_key_configured : option bool;
  offline_error : option jsstring
}.

(** The body of a [/rate-limit] reply; an absent property is [None]. *)
Record RateLimitData := {
  is_limited : bool;
  message : option jsstring;
  seconds_remaining : option Z
}.

(** The JSON body of an [/analyze] reply: an error object with an optional
    [detail], or an analysis payload. *)
Inductive AnalyzeJson :=
| ErrorData (detail : option jsstring)
| AnalysisData (a : Analysis).

(** The outcome of [fetch(url)] followed by [response.json()]: the fetch
    promise rejects (no response), or a response arrives with a status and
    a body that parses as JSON or does not; both failures carry the
    [message] of the error thrown. *)
Inductive Parsed (A : Type) :=
| NotJson (err_message : jsstring)
| Json (data : A).

Inductive Fetched (A : Type) :=
| Rejected (err_message : jsstring)
| Responded (http_status : Z) (body : Parsed A).

Arguments NotJson {A} err_message.
Arguments Json {A} data.
Arguments Rejected {A} err_message.
Arguments Responded {A} http_status body.

(** [response.ok] *)
Definition ok (http_status : Z) : bool :=
  (200 <=? http_status) && (http_status <=? 299).

Inductive Request :=
| GetHealth
| GetRateLimit
| PostAnalyze (stock_name : jsstring).

(** ** Component state *)

(** The seven [useState] cells. *)
Record AppState := {
  stockName : jsstring;
  loading : bool;
  analysis : option AnalyzeJson;
  error : jsstring;
  backendStatus : option HealthData;
  rateLimit : option RateLimitData;
  countdown : Z
}.

Definition setStockName (v : jsstring) (s : AppState) : AppState :=
  {| stockName := v; loading := loading s; analysis := analysis s;
     error := error s; backendStatus := backendStatus s;
     rateLimit := rateLimit s; countdown := countdown s |}.

Definition setLoading (v : bool) (s : AppState) : AppState :=
  {| stockName := stockName s; loading := v; analysis := analysis s;
     error := error s; backendStatus := backendStatus s;
     rateLimit := rateLimit s; countdown := countdown s |}.

Definition setAnalysis (v : option AnalyzeJson) (s : AppState) : AppState :=
  {| stockName := stockName s; loading := loading s; analysis := v;
     error := error s; backendStatus := backendStatus s;
     rateLimit := rateLimit s; countdown := countdown s |}.

Definition setError (v : jsstring) (s : AppState) : AppState :=
  {| stockName := stockName s; loading := loading s; analysis := analysis s;
     error := v; backendStatus := backendStatus s;
     rateLimit := rateLimit s; countdown := countdown s |}.

Definition setBackendStatus (v : option HealthData) (s : AppState) : AppState :=
  {| stockName := stockName s; loading := loading s; analysis := analysis s;
     error := error s; backendStatus := v;
     rateLimit := rateLimit s; countdown := countdown s |}.

Definition setRateLimit (v : option RateLimitData) (s : AppState) : AppState :=
  {| stockName := stockName s; loading := loading s; analysis := analysis s;
     error := error s; backendStatus := backendStatus s;
     rateLimit := v; countdown := countdown s |}.

Definition setCountdown (v : Z) (s : AppState) : AppState :=
  {| stockName := stockName s; loading := loading s; analysis := analysis s;
     error := error s; backendStatus := backendStatus s;
     rateLimit := rateLimit s; countdown := v |}.

(** The state of the first render. *)
Definition initialState : AppState :=
  {| stockName := []; loading := false; analysis := None; error := [];
     backendStatus := None; rateLimit := None; countdown := 0 |}.

(** [backendStatus?.status === 'healthy'] *)
Definition healthy (s : AppState) : bool :=
  match backendStatus s with
  | Some d => Js.eqb (status d) (Js.lit "healthy")
  | None => false
  end.

(** The truth value of [rateLimit?.is_limited]. *)
Definition limited (s : AppState) : bool :=
  match rateLimit s with
  | Some d => is_limited d
  | None => false
  end.

(** ** The world: state, network log and suspended handlers *)

(** Who awaits a [/rate-limit] reply: a probe called on its own (mount,
    Refresh button, countdown expiry), or the one [analyzeStock] awaits
    after a 429, whose frame holds [errorData.detail]. *)
Inductive ProbeCaller :=
| Standalone
| FromAnalyze (errorData_detail : option jsstring).

(** A handler suspended at an [await]. *)
Inductive Task :=
| AwaitHealth
| AwaitRateLimit (caller : ProbeCaller)
| AwaitAnalyze.

Record World := {
  ui : AppState;
  sent : list Request;   (* every request issued so far, oldest first *)
  tasks : list Task      (* the handlers waiting for a reply *)
}.

Definition onState (f : AppState -> AppState) (w : World) : World :=
  {| ui := f (ui w); sent := sent w; tasks := tasks w |}.

(** [await fetch(...)]: the request goes out and the caller is suspended. *)
Definition fetch (rq : Request) (k : Task) (w : World) : World :=
  {| ui := ui w; sent := sent w ++ [rq]; tasks := tasks w ++ [k] |}.

(** *** checkBackendHealth *)

Definition checkBackendHealth (w : World) : World :=
  fetch GetHealth AwaitHealth w.

Definition offline (err_message : jsstring) : HealthData :=
  {| status := Js.lit "offline"; api_key_configured := None;
     offline_error := Some err_message |}.

Definition checkBackendHealth_resume (r : Fetched HealthData) (s : AppState)
  : AppState :=
  match r with
  | Responded _ (Json data) => setBackendStatus (Some data) s
  | Responded _ (NotJson m) => setBackendStatus (Some (offline m)) s
  | Rejected m => setBackendStatus (Some (offline m)) s
  end.

(** *** checkRateLimit *)

Definition checkRateLimit_from (caller : ProbeCaller) (w : World) : World :=
  fetch GetRateLimit (AwaitRateLimit caller) w.

Definition checkRateLimit (w : World) : World :=
  checkRateLimit_from Standalone w.

(** The object of the [catch] branch. *)
Definition unavailable : RateLimitData :=
  {| is_limited := false;
     message := Some (Js.lit "Rate limit check unavailable");
     seconds_remaining := None |}.

(** The truth value of [data.seconds_remaining]: present and not zero. *)
Definition seconds_truthy (d : RateLimitData) : bool :=
  match seconds_remaining d with
  | Some n => negb (n =? 0)
  | None => false
  end.

Definition seconds_value (d : RateLimitData) : Z :=
  match seconds_remaining d with
  | Some n => n
  | None => 0
  end.

Definition checkRateLimit_resume (r : Fetched RateLimitData) (s : AppState)
  : AppState :=
  match r with
  | Responded _ (Json data) =>
      let s1 := setRateLimit (Some data) s in
      if is_limited data && seconds_truthy data
      then setCountdown (seconds_value data) s1
      else s1
  | Responded _ (NotJson _) => setRateLimit (Some unavailable) s
  | Rejected _ => setRateLimit (Some unavailable) s
  end.

(** *** analyzeStock *)

(** The mis-decoded warning sign that opens two of the messages, as the
    source file has it: U+201A U+00F6 U+2020 U+00D4 U+220F U+00E8. *)
Definition warningSign : jsstring := [8218; 246; 8224; 212; 8719; 232]%N.

(** The message computed in the [catch] block from [err.message]. *)
Definition errorMessage (err_message : jsstring) : jsstring :=
  if Js.includes err_message (Js.lit "Failed to fetch") then
    warningSign
    ++ Js.lit " Cannot connect to backend server. Is backend running?"
  else if Js.includes err_message (Js.lit "API key") then
    warningSign ++ Js.lit " API key not configured."
  else
    Js.lit "Analysis error occurred. " ++ err_message.

(** [catch (err) { ... setError(errorMessage) } finally { setLoading(false) }] *)
Definition analyzeStock_catch (err_message : jsstring) (s : AppState)
  : AppState :=
  setLoading false (setError (errorMessage err_message) s).

(** [errorData.detail || 'Analysis failed'] *)
Definition detail_or_default (errorData_detail : option jsstring) : jsstring :=
  match errorData_detail with
  | Some d => if Js.truthy d then d else Js.lit "Analysis failed"
  | None => Js.lit "Analysis failed"
  end.

(** The [detail] property of a parsed body; an analysis payload has none. *)
Definition detail_of (j : AnalyzeJson) : option jsstring :=
  match j with
  | ErrorData d => d
  | AnalysisData _ => None
  end.

(** The synchronous part, up to the [fetch]. *)
Definition analyzeStock (w : World) : World :=
  if negb (Js.truthy (Js.trim (stockName (ui w)))) then
    onState (setError (Js.lit "Please enter a stock name")) w
  else
    fetch (PostAnalyze (stockName (ui w))) AwaitAnalyze
      (onState (fun s => setAnalysis None (setError [] (setLoading true s))) w).

(** The part that runs when the [/analyze] reply arrives. *)
Definition analyzeStock_resume (r : Fetched AnalyzeJson) (w : World) : World :=
  match r with
  | Rejected m => onState (analyzeStock_catch m) w
  | Responded st body =>
      if negb (ok st) then
        match body with
        | NotJson m => onState (analyzeStock_catch m) w
        | Json errorData =>
            if st =? 429
            then checkRateLimit_from (FromAnalyze (detail_of errorData)) w
            else onState
                   (analyzeStock_catch (detail_or_default (detail_of errorData)))
                   w
        end
      else
        match body with
        | NotJson m => onState (analyzeStock_catch m) w
        | Json data =>
            onState (fun s => setLoading false (setAnalysis (Some data) s)) w
        end
  end.

(** After a 429: [await checkRateLimit()] has finished, the error is
    thrown and caught. *)
Definition analyzeStock_after_probe (errorData_detail : option jsstring)
  (s : AppState) : AppState :=
  analyzeStock_catch (detail_or_default errorData_detail) s.

(** *** User interface events *)

(** The [disabled] attribute of the Analyze button. *)
Definition analyzeDisabled (s : AppState) : bool :=
  loading s || negb (healthy s) || limited s.

(** A click on the Analyze button; a disabled button fires no [onClick]. *)
Definition clickAnalyze (w : World) : World :=
  if analyzeDisabled (ui w) then w else analyzeStock w.

Definition handleKeyPress (key : jsstring) (w : World) : World :=
  if Js.eqb key (Js.lit "Enter") && negb (loading (ui w))
     && healthy (ui w) && negb (limited (ui w))
  then analyzeStock w
  else w.

(** The text input is [disabled={loading}]. *)
Definition changeInput (v : jsstring) (w : World) : World :=
  if loading (ui w) then w else onState (setStockName v) w.

(** The Refresh Status button lives in the banner, which is rendered only
    when [rateLimit?.is_limited]. *)
Definition clickRefresh (w : World) : World :=
  if limited (ui w) then checkRateLimit w else w.

(** The countdown shown in the banner: rendered when the banner is and
    [countdown > 0]. *)
Definition countdownVisible (s : AppState) : bool :=
  limited s && (0 <? countdown s).

(** One firing of the interval of the countdown effect. The effect installs
    the interval only when [countdown > 0]; the callback is
    [setCountdown(prev => ...)]. *)
Definition tick (w : World) : World :=
  if 0 <? countdown (ui w) then
    if countdown (ui w) <=? 1
    then onState (setCountdown 0) (checkRateLimit w)
    else onState (setCountdown (countdown (ui w) - 1)) w
  else w.

(** The mount effect: [checkBackendHealth(); checkRateLimit();]. *)
Definition mount (w : World) : World :=
  checkRateLimit (checkBackendHealth w).

Definition initialWorld : World :=
  mount {| ui := initialState; sent := []; tasks := [] |}.

(** *** The event loop *)

Inductive Reply :=
| HealthReply (r : Fetched HealthData)
| RateLimitReply (r : Fetched RateLimitData)
| AnalyzeReply (r : Fetched AnalyzeJson).

Inductive Event :=
| ChangeInput (v : jsstring)
| KeyPress (key : jsstring)
| ClickAnalyze
| ClickRefresh
| Tick
| Deliver (i : nat) (r : Reply).

Definition remove_nth {A} (i : nat) (l : list A) : list A :=
  firstn i l ++ skipn (S i) l.

(** The continuation of a suspended handler, given its reply; [None] when
    the reply is not one for that handler's request. *)
Definition resume (t : Task) (r : Reply) (w : World) : option World :=
  match t, r with
  | AwaitHealth, HealthReply r => Some (onState (checkBackendHealth_resume r) w)
  | AwaitRateLimit Standalone, RateLimitReply r =>
      Some (onState (checkRateLimit_resume r) w)
  | AwaitRateLimit (FromAnalyze d), RateLimitReply r =>
      Some (onState
              (fun s => analyzeStock_after_probe d (checkRateLimit_resume r s))
              w)
  | AwaitAnalyze, AnalyzeReply r => Some (analyzeStock_resume r w)
  | _, _ => None
  end.

(** One event. [Deliver i r] hands reply [r] to the [i]-th suspended
    handler; it is not enabled when there is no such handler. *)
Definition step (w : World) (e : Event) : option World :=
  match e with
  | ChangeInput v => Some (changeInput v w)
  | KeyPress key => Some (handleKeyPress key w)
  | ClickAnalyze => Some (clickAnalyze w)
  | ClickRefresh => Some (clickRefresh w)
  | Tick => Some (tick w)
  | Deliver i r =>
      match nth_error (tasks w) i with
      | Some t =>
          resume t r
            {| ui := ui w; sent := sent w; tasks := remove_nth i (tasks w) |}
      | None => None
      end
  end.

Fixpoint run (w : World) (es : list Event) : option World :=
  match es with
  | [] => Some w
  | e :: es' =>
      match step w e with
      | Some w' => run w' es'
      | None => None
      end
  end.

(** The number of [/analyze] requests in a log. *)
Fixpoint analyzeCalls (l : list Request) : nat :=
  match l with
  | [] => O
  | PostAnalyze _ :: l' => S (analyzeCalls l')
  | _ :: l' => analyzeCalls l'
  end.

(** The number of [/rate-limit] requests in a log. *)
Fixpoint probeCalls (l : list Request) : nat :=
  match l with
  | [] => O
  | GetRateLimit :: l' => S (probeCalls l')
  | _ :: l' => probeCalls l'
  end.

(** The number of submissions still running: suspended at the [/analyze]
    fetch or at the probe that follows a 429. *)
Fixpoint outstanding (l : list Task) : nat :=
  match l with
  | [] => O
  | AwaitAnalyze :: l' => S (outstanding l')
  | AwaitRateLimit (FromAnalyze _) :: l' => S (outstanding l')
  | _ :: l' => outstanding l'
  end.

(** [n] firings of the interval. *)
Fixpoint ticks (n : nat) (w : World) : World :=
  match n with
  | O => w
  | S n' => ticks n' (tick w)
  end.

(** ** Further parts of the render function *)

(** The gradient class of the score bar, chosen by its own conditional
    chain on the confidence. *)
Definition barClass (confidence : Z) : jsstring :=
  if confidence >=? 75 then Js.lit "bg-gradient-to-r from-green-500 to-green-400"
  else if confidence >=? 60 then Js.lit "bg-gradient-to-r from-yellow-500 to-green-400"
  else if confidence >=? 45 then Js.lit "bg-gradient-to-r from-yellow-500 to-yellow-400"
  else Js.lit "bg-gradient-to-r from-red-500 to-orange-400".

(** [Number.MAX_SAFE_INTEGER]: up to it integers are exact and print as
    plain decimal digits. *)
Definition MAX_SAFE_INTEGER : Z := 9007199254740991.

(** [n.toString()] for an integer: a minus sign if negative, then the
    decimal digits. *)
Definition toString (n : Z) : jsstring :=
  Js.lit (NilZero.string_of_int (Z.to_int n)).

(** [s.padStart(targetLength, padString)]: [s] itself when it is long
    enough or the pad is empty, else the pad repeated and cut to the
    missing length, then [s]. *)
Definition padStart (targetLength : nat) (padString s : jsstring) : jsstring :=
  let fillLen := (targetLength - List.length s)%nat in
  match padString with
  | [] => s
  | _ :: _ => firstn fillLen (List.concat (repeat padString fillLen)) ++ s
  end.

(** The text of the countdown,
    [{Math.floor(countdown / 60)}:{(countdown % 60).toString().padStart(2, '0')}]:
    floored quotient, and the remainder with the sign of the dividend. *)
Definition countdownText (countdown : Z) : jsstring :=
  toString (countdown / 60) ++ Js.lit ":"
  ++ padStart 2 (Js.lit "0") (toString (Z.rem countdown 60)).

(** ** Vocabulary of the statements *)

(** An input that is empty or made of white space only. *)
Definition blank (s : jsstring) : Prop :=
  Forall (fun c => Js.isWhiteSpace c = true) s.

(** A world for examples: the health probe has answered "healthy", the
    rate-limit probe has not answered yet, and [v] has been typed. *)
Definition typed (v : jsstring) : World :=
  {| ui := setBackendStatus
             (Some {| status := Js.lit "healthy";
                      api_key_configured := Some true;
                      offline_error := None |})
             (setStockName v initialState);
     sent := [GetHealth; GetRateLimit];
     tasks := [] |}.

(** A probe that fails at the transport level: no response, or a response
    whose body is not JSON. *)
Definition transportFailure {A} (r : Fetched A) : bool :=
  match r with
  | Rejected _ => true
  | Responded _ (NotJson _) => true
  | Responded _ (Json _) => false
  end.

(** The status section 4.2 of the spec gives for a failed probe, in the
    spec's words. *)
Definition spec_unavailable : RateLimitData :=
  {| is_limited := false;
     message := Some (Js.lit "rate limit check unavailable");
     seconds_remaining := None |}.

(** Single flight: a submission is running exactly when [loading] is set,
    and then only one is. *)
Definition singleFlight (w : World) : Prop :=
  outstanding (tasks w) = if loading (ui w) then 1%nat else 0%nat.

(** A world in which the rate limit is active and the countdown shows
    [n] seconds. *)
Definition limitedFor (n : Z) : World :=
  {| ui := setCountdown n
             (setRateLimit
                (Some {| is_limited := true;
                         message := Some (Js.lit "Try again later");
                         seconds_remaining := Some n |})
                (ui (typed (Js.lit "TCS"))));
     sent := [GetHealth; GetRateLimit];
     tasks := [] |}.

(** The number of [/health] requests in a log. *)
Fixpoint healthCalls (l : list Request) : nat :=
  match l with
  | [] => O
  | GetHealth :: l' => S (healthCalls l')
  | _ :: l' => healthCalls l'
  end.

(** The number of health probes still waiting for their reply. *)
Fixpoint awaitingHealth (l : list Task) : nat :=
  match l with
  | [] => O
  | AwaitHealth :: l' => S (awaitingHealth l')
  | _ :: l' => awaitingHealth l'
  end.

(** The [stock_name] of the latest [/analyze] request of a log. *)
Fixpoint lastAnalyze (l : list Request) : option jsstring :=
  match l with
  | [] => None
  | rq :: l' =>
      match lastAnalyze l', rq with
      | Some v, _ => Some v
      | None, PostAnalyze v => Some v
      | None, _ => None
      end
  end.

(** While a submission is pending, neither a result nor an error is on
    screen and the input holds the name that was sent. *)
Definition pendingClean (w : World) : Prop :=
  loading (ui w) = true ->
  analysis (ui w) = None
  /\ error (ui w) = []
  /\ lastAnalyze (sent w) = Some (stockName (ui w)).

(** The health probe is sent once; until it is answered nothing has been
    submitted, and once it is answered submissions need a healthy
    status. *)
Definition healthOnce (w : World) : Prop :=
  healthCalls (sent w) = 1%nat
  /\ match backendStatus (ui w) with
     | None =>
         awaitingHealth (tasks w) = 1%nat /\ analyzeCalls (sent w) = 0%nat
     | Some _ =>
         awaitingHealth (tasks w) = 0%nat
         /\ (analyzeCalls (sent w) = 0%nat \/ healthy (ui w) = true)
     end.

(** A reply to [/analyze] that ends in the [catch] block at once: no
    response, a body that is not JSON, or an error status other than 429. *)
Definition failedReply (r : Fetched AnalyzeJson) : bool :=
  match r with
  | Rejected _ => true
  | Responded _ (NotJson _) => true
  | Responded st (Json _) => negb (ok st) && negb (st =? 429)
  end.

(** A healthy [/health] answer and a clear [/rate-limit] answer, for
    examples. *)
Definition healthyData : HealthData :=
  {| status := Js.lit "healthy"; api_key_configured := Some true;
     offline_error := None |}.

Definition clearData : RateLimitData :=
  {| is_limited := false; message := None; seconds_remaining := None |}.

(** The events that bring the component to a pending submission of "TCS". *)
Definition submitTCS : list Event :=
  [Deliver 0 (HealthReply (Responded 200 (Json healthyData)));
   Deliver 0 (RateLimitReply (Responded 200 (Json clearData)));
   ChangeInput (Js.lit "TCS");
   ClickAnalyze].

(** * Properties *)

(** ** Strings *)

Module JsFacts.
Import Js.

Lemma eqb_eq (a b : jsstring) : eqb a b = true <-> a = b.
Proof.
  revert b; induction a as [|x a IH]; intros [|y b]; simpl;
    try (split; congruence).
  rewrite andb_true_iff, N.eqb_eq, IH. split.
  - intros [-> ->]; reflexivity.
  - intros E; injection E; auto.
Qed.

Lemma eqb_neq (a b : jsstring) : eqb a b = false <-> a <> b.
Proof.
  rewrite <- eqb_eq. destruct (eqb a b); split; congruence.
Qed.

Lemma trimStart_blank (s : jsstring) :
  Forall (fun c => isWhiteSpace c = true) s -> trimStart s = [].
Proof.
  induction 1 as [|c t Hc _ IH]; simpl; [reflexivity|].
  rewrite Hc; exact IH.
Qed.

Lemma trim_blank (s : jsstring) :
  Forall (fun c => isWhiteSpace c = true) s -> trim s = [].
Proof.
  intros H. unfold trim, trimEnd.
  rewrite (trimStart_blank s H). reflexivity.
Qed.

End JsFacts.

(** ** Recommendation classifier *)

Lemma strengthTier_in_range (c : Z) :
  0 <= c <= 100 -> spec_tier_range (strengthTier c) c.
Proof.
  intros Hc. unfold strengthTier.
  destruct (Z.geb_spec c 75); [simpl; lia|].
  destruct (Z.geb_spec c 60); [simpl; lia|].
  destruct (Z.geb_spec c 45); [simpl; lia|].
  destruct (Z.geb_spec c 30); simpl; lia.
Qed.

Lemma spec_tier_range_disjoint (t u : Tier) (c : Z) :
  spec_tier_range t c -> spec_tier_range u c -> t = u.
Proof.
  destruct t, u; simpl; intros; try reflexivity; lia.
Qed.

(** C1. For every confidence [c] in [0,100] the badge shows exactly one
    tier, the one whose range in the table of section 4.4 contains [c];
    each of the boundaries 30, 45, 60 and 75 falls in the higher tier. *)
Theorem strengthTier_table (c : Z) :
  0 <= c <= 100 ->
  (forall t, strengthTier c = t <-> spec_tier_range t c)
  /\ strengthTier 30 = WEAK
  /\ strengthTier 45 = MODERATE
  /\ strengthTier 60 = MODERATE_STRONG
  /\ strengthTier 75 = STRONG.
Proof.
  intros Hc. split; [|repeat split].
  intros t. split.
  - intros <-. apply strengthTier_in_range; exact Hc.
  - intros Ht. eapply spec_tier_range_disjoint; [|exact Ht].
    apply strengthTier_in_range; exact Hc.
Qed.

Lemma strengthTier_table_witness :
  0 <= 74 <= 100
  /\ (forall t, strengthTier 74 = t <-> spec_tier_range t 74)
  /\ strengthTier 30 = WEAK
  /\ strengthTier 45 = MODERATE
  /\ strengthTier 60 = MODERATE_STRONG
  /\ strengthTier 75 = STRONG.
Proof.
  split; [lia | apply (strengthTier_table 74); lia].
Defined.

(** C5, as stated, fails: the label "WATCH" is neither BUY nor HOLD, yet its
    style is not the negative (red) one that SELL gets, nor the positive
    one: it is a third, yellow style. *)
Lemma getRecommendationStyle_third_style :
  Js.lit "WATCH" <> BUY /\ Js.lit "WATCH" <> HOLD
  /\ getRecommendationStyle SELL = redStyle
  /\ getRecommendationStyle (Js.lit "WATCH") = yellowStyle
  /\ getRecommendationStyle (Js.lit "WATCH") <> getRecommendationStyle SELL
  /\ getRecommendationStyle (Js.lit "WATCH") <> getRecommendationStyle BUY.
Proof.
  repeat split; try reflexivity; vm_compute; discriminate.
Qed.

(** C5, amended. The style and the border are functions of the label
    alone. The border is binary: green for BUY and HOLD, red for every
    other label. The style (text colour, background, icon) has three
    values: green for BUY and HOLD, red for SELL, yellow for any other
    label. *)
Theorem polarity_by_label (rec : jsstring) :
  (rec = BUY \/ rec = HOLD ->
     getRecommendationStyle rec = greenStyle
     /\ borderClass rec = Js.lit "border-green-400/50")
  /\ (rec = SELL ->
     getRecommendationStyle rec = redStyle
     /\ borderClass rec = Js.lit "border-red-400/50")
  /\ (rec <> BUY -> rec <> HOLD -> rec <> SELL ->
     getRecommendationStyle rec = yellowStyle
     /\ borderClass rec = Js.lit "border-red-400/50").
Proof.
  split; [|split].
  - intros [-> | ->]; split; reflexivity.
  - intros ->; split; reflexivity.
  - intros Hb Hh Hs.
    apply JsFacts.eqb_neq in Hb, Hh, Hs.
    unfold getRecommendationStyle, borderClass.
    rewrite Hb, Hh, Hs. split; reflexivity.
Qed.

Lemma polarity_by_label_witness :
  (getRecommendationStyle HOLD = greenStyle
   /\ borderClass HOLD = Js.lit "border-green-400/50")
  /\ (getRecommendationStyle SELL = redStyle
   /\ borderClass SELL = Js.lit "border-red-400/50")
  /\ (getRecommendationStyle (Js.lit "WATCH") = yellowStyle
   /\ borderClass (Js.lit "WATCH") = Js.lit "border-red-400/50").
Proof.
  split; [|split].
  - apply (proj1 (polarity_by_label HOLD)). right; reflexivity.
  - apply (proj1 (proj2 (polarity_by_label SELL))). reflexivity.
  - apply (proj2 (proj2 (polarity_by_label (Js.lit "WATCH"))));
      vm_compute; discriminate.
Defined.

(** C10. With a confidence of at least 75 and a label other than BUY the
    badge reads STRONG and none of the five guidance blocks is
    rendered. *)
Theorem strong_without_buy_has_no_guidance (a : Analysis) :
  75 <= consensus_confidence a ->
  consensus_recommendation a <> BUY ->
  strengthTier (consensus_confidence a) = STRONG
  /\ guidanceBlocks a = [].
Proof.
  intros Hc Hr. apply JsFacts.eqb_neq in Hr.
  unfold strengthTier, guidanceBlocks.
  rewrite Hr.
  destruct (Z.geb_spec (consensus_confidence a) 75) as [_|]; [|lia].
  destruct (Z.ltb_spec (consensus_confidence a) 75); [lia|].
  destruct (Z.ltb_spec (consensus_confidence a) 60); [lia|].
  destruct (Z.ltb_spec (consensus_confidence a) 45); [lia|].
  destruct (Z.ltb_spec (consensus_confidence a) 30); [lia|].
  rewrite !andb_false_r. simpl. split; reflexivity.
Qed.

Lemma strong_without_buy_has_no_guidance_witness :
  let a := {| consensus_recommendation := HOLD; consensus_confidence := 80 |} in
  strengthTier (consensus_confidence a) = STRONG /\ guidanceBlocks a = [].
Proof.
  apply (strong_without_buy_has_no_guidance
           {| consensus_recommendation := HOLD; consensus_confidence := 80 |}).
  - simpl; lia.
  - vm_compute; discriminate.
Defined.

(** ** Submission *)

(** C8. Submitting an empty or whitespace-only input sends nothing,
    suspends nothing, leaves [loading] as it was (the submission never
    becomes pending) and sets the error message. *)
Theorem analyzeStock_blank_input (w : World) :
  blank (stockName (ui w)) ->
  sent (analyzeStock w) = sent w
  /\ tasks (analyzeStock w) = tasks w
  /\ loading (ui (analyzeStock w)) = loading (ui w)
  /\ analysis (ui (analyzeStock w)) = analysis (ui w)
  /\ error (ui (analyzeStock w)) = Js.lit "Please enter a stock name".
Proof.
  intros H. unfold analyzeStock.
  rewrite (JsFacts.trim_blank _ H). simpl. repeat split.
Qed.

Lemma analyzeStock_blank_input_witness :
  let w := typed (Js.lit "   ") in
  sent (analyzeStock w) = sent w
  /\ tasks (analyzeStock w) = tasks w
  /\ loading (ui (analyzeStock w)) = loading (ui w)
  /\ analysis (ui (analyzeStock w)) = analysis (ui w)
  /\ error (ui (analyzeStock w)) = Js.lit "Please enter a stock name".
Proof.
  apply (analyzeStock_blank_input (typed (Js.lit "   "))).
  repeat constructor.
Defined.

(** C4, as stated, fails: with " TCS" typed, the request carries " TCS",
    not its trimmed form "TCS". *)
Lemma analyzeStock_sends_untrimmed :
  let w := typed (Js.lit " TCS") in
  Js.trim (stockName (ui w)) = Js.lit "TCS"
  /\ sent (analyzeStock w) = sent w ++ [PostAnalyze (Js.lit " TCS")]
  /\ sent (analyzeStock w)
     <> sent w ++ [PostAnalyze (Js.trim (stockName (ui w)))].
Proof.
  repeat split; vm_compute; discriminate.
Qed.

(** C4, amended. For every input that is non-empty after trimming, the
    submission issues exactly one request, an [/analyze] request whose
    [stock_name] is the input as typed, untrimmed; the submission becomes
    pending. *)
Theorem analyzeStock_sends_input (w : World) :
  Js.trim (stockName (ui w)) <> [] ->
  sent (analyzeStock w) = sent w ++ [PostAnalyze (stockName (ui w))]
  /\ tasks (analyzeStock w) = tasks w ++ [AwaitAnalyze]
  /\ loading (ui (analyzeStock w)) = true.
Proof.
  intros H. unfold analyzeStock.
  destruct (Js.trim (stockName (ui w))) as [|c t]; [congruence|].
  simpl. repeat split.
Qed.

Lemma analyzeStock_sends_input_witness :
  let w := typed (Js.lit " TCS") in
  sent (analyzeStock w) = sent w ++ [PostAnalyze (stockName (ui w))]
  /\ tasks (analyzeStock w) = tasks w ++ [AwaitAnalyze]
  /\ loading (ui (analyzeStock w)) = true.
Proof.
  apply (analyzeStock_sends_input (typed (Js.lit " TCS"))).
  vm_compute; discriminate.
Defined.

Lemma clickAnalyze_blocked (w : World) :
  healthy (ui w) = false \/ limited (ui w) = true \/ loading (ui w) = true ->
  clickAnalyze w = w.
Proof.
  intros H. unfold clickAnalyze, analyzeDisabled.
  destruct H as [-> | [-> | ->]]; simpl; rewrite ?orb_true_r; reflexivity.
Qed.

Lemma handleKeyPress_blocked (key : jsstring) (w : World) :
  healthy (ui w) = false \/ limited (ui w) = true \/ loading (ui w) = true ->
  handleKeyPress key w = w.
Proof.
  intros H. unfold handleKeyPress.
  destruct H as [-> | [-> | ->]]; simpl; rewrite ?andb_false_r; reflexivity.
Qed.

(** C2. When the backend is not healthy, or the rate limit is active, or a
    submission is pending, neither a click on the Analyze button nor any
    key press changes the world: no request is issued and no handler is
    started. *)
Theorem submission_gate (w : World) :
  healthy (ui w) = false \/ limited (ui w) = true \/ loading (ui w) = true ->
  clickAnalyze w = w
  /\ (forall key, handleKeyPress key w = w).
Proof.
  intros H. split.
  - apply clickAnalyze_blocked; exact H.
  - intros key. apply handleKeyPress_blocked; exact H.
Qed.

Lemma submission_gate_witness :
  let w := analyzeStock (typed (Js.lit "TCS")) in
  loading (ui w) = true
  /\ clickAnalyze w = w
  /\ (forall key, handleKeyPress key w = w).
Proof.
  split; [reflexivity|].
  apply (submission_gate (analyzeStock (typed (Js.lit "TCS")))).
  right; right; reflexivity.
Defined.

(** ** Single flight *)

Lemma outstanding_app (l1 l2 : list Task) :
  outstanding (l1 ++ l2) = (outstanding l1 + outstanding l2)%nat.
Proof.
  induction l1 as [|t l1 IH]; simpl; [reflexivity|].
  destruct t as [|[|d]|]; simpl; rewrite IH; reflexivity.
Qed.

Lemma outstanding_remove_nth (l : list Task) (i : nat) (t : Task) :
  nth_error l i = Some t ->
  outstanding l = (outstanding [t] + outstanding (remove_nth i l))%nat.
Proof.
  revert i; induction l as [|u l IH]; intros [|i] H; simpl in H;
    try discriminate.
  - injection H as ->. unfold remove_nth; simpl.
    destruct t as [|[|d]|]; reflexivity.
  - specialize (IH i H). unfold remove_nth in *; simpl in *.
    destruct u as [|[|d]|]; simpl; rewrite IH;
      destruct t as [|[|d']|]; simpl; lia.
Qed.

Lemma analyzeStock_singleFlight (w : World) :
  loading (ui w) = false -> singleFlight w -> singleFlight (analyzeStock w).
Proof.
  unfold singleFlight, analyzeStock. intros Hl Hw. rewrite Hl in Hw.
  destruct (Js.truthy (Js.trim (stockName (ui w)))); simpl.
  - rewrite outstanding_app, Hw. reflexivity.
  - rewrite Hl. exact Hw.
Qed.

Lemma loading_checkRateLimit_resume (r : Fetched RateLimitData) (s : AppState) :
  loading (checkRateLimit_resume r s) = loading s.
Proof.
  destruct r as [m|st [m|data]]; simpl; try reflexivity.
  destruct (is_limited data && seconds_truthy data); reflexivity.
Qed.

Lemma step_singleFlight (w w' : World) (e : Event) :
  singleFlight w -> step w e = Some w' -> singleFlight w'.
Proof.
  intros Hw Hs. destruct e as [v|key| | | |i r]; simpl in Hs.
  - injection Hs as <-. unfold changeInput.
    destruct (loading (ui w)) eqn:Hl; [exact Hw|].
    unfold singleFlight in *; simpl. rewrite Hl. rewrite Hl in Hw. exact Hw.
  - injection Hs as <-. unfold handleKeyPress.
    destruct (loading (ui w)) eqn:Hl;
      [rewrite andb_false_r; exact Hw|].
    destruct (Js.eqb key (Js.lit "Enter") && negb false
              && healthy (ui w) && negb (limited (ui w))); [|exact Hw].
    apply analyzeStock_singleFlight; assumption.
  - injection Hs as <-. unfold clickAnalyze, analyzeDisabled.
    destruct (loading (ui w)) eqn:Hl; [exact Hw|]. simpl.
    destruct (negb (healthy (ui w)) || limited (ui w)); [exact Hw|].
    apply analyzeStock_singleFlight; assumption.
  - injection Hs as <-. unfold clickRefresh.
    destruct (limited (ui w)); [|exact Hw].
    unfold singleFlight in *; simpl.
    rewrite outstanding_app, Hw; simpl. lia.
  - injection Hs as <-. unfold tick.
    destruct (0 <? countdown (ui w)); [|exact Hw].
    destruct (countdown (ui w) <=? 1); unfold singleFlight in *; simpl.
    + rewrite outstanding_app, Hw; simpl. lia.
    + exact Hw.
  - destruct (nth_error (tasks w) i) as [t|] eqn:Ht; [|discriminate].
    pose proof (outstanding_remove_nth _ _ _ Ht) as Ho.
    unfold singleFlight in Hw. rewrite Ho in Hw.
    destruct t as [|[|d]|], r as [r|r|r]; simpl in Hs; try discriminate;
      injection Hs as <-; unfold singleFlight; simpl in *.
    + destruct r as [m|st [m|data]]; exact Hw.
    + rewrite loading_checkRateLimit_resume. exact Hw.
    + destruct (loading (ui w)); simpl in Hw; lia.
    + destruct (loading (ui w)) eqn:Hl; [|simpl in Hw; lia].
      assert (Hr : outstanding (remove_nth i (tasks w)) = 0%nat) by lia.
      destruct r as [m|st [m|data]]; simpl; try exact Hr.
      * destruct (negb (ok st)); simpl; exact Hr.
      * destruct (negb (ok st)); simpl; [|exact Hr].
        destruct (st =? 429); simpl; [|exact Hr].
        rewrite outstanding_app, Hr, Hl. reflexivity.
Qed.

Lemma run_singleFlight (es : list Event) (w w' : World) :
  singleFlight w -> run w es = Some w' -> singleFlight w'.
Proof.
  revert w; induction es as [|e es IH]; simpl; intros w Hw Hr.
  - injection Hr as <-. exact Hw.
  - destruct (step w e) as [w1|] eqn:Hs; [|discriminate].
    apply (IH w1); [|exact Hr].
    apply (step_singleFlight w w1 e); assumption.
Qed.

Lemma analyzeCalls_app (l1 l2 : list Request) :
  analyzeCalls (l1 ++ l2) = (analyzeCalls l1 + analyzeCalls l2)%nat.
Proof.
  induction l1 as [|rq l1 IH]; simpl; [reflexivity|].
  destruct rq; simpl; rewrite IH; reflexivity.
Qed.

(** X11. In every world the component can reach, at most one submission
    is running, and while one is running no event issues a second
    [/analyze] request. *)
Theorem single_flight (es : list Event) (w : World) :
  run initialWorld es = Some w ->
  (outstanding (tasks w) <= 1)%nat
  /\ (forall e w', outstanding (tasks w) = 1%nat -> step w e = Some w' ->
        analyzeCalls (sent w') = analyzeCalls (sent w)).
Proof.
  intros Hr.
  assert (Hw : singleFlight w).
  { apply (run_singleFlight es initialWorld w); [reflexivity | exact Hr]. }
  unfold singleFlight in Hw. split.
  - rewrite Hw. destruct (loading (ui w)); lia.
  - intros e w' H1 Hs. rewrite H1 in Hw.
    destruct (loading (ui w)) eqn:Hl; [|discriminate].
    destruct e as [v|key| | | |i r]; simpl in Hs.
    + injection Hs as <-. unfold changeInput. rewrite Hl. reflexivity.
    + injection Hs as <-.
      rewrite handleKeyPress_blocked by (right; right; exact Hl).
      reflexivity.
    + injection Hs as <-.
      rewrite clickAnalyze_blocked by (right; right; exact Hl).
      reflexivity.
    + injection Hs as <-. unfold clickRefresh.
      destruct (limited (ui w)); [|reflexivity].
      simpl. rewrite analyzeCalls_app; simpl. lia.
    + injection Hs as <-. unfold tick.
      destruct (0 <? countdown (ui w)); [|reflexivity].
      destruct (countdown (ui w) <=? 1); simpl; [|reflexivity].
      rewrite analyzeCalls_app; simpl. lia.
    + destruct (nth_error (tasks w) i) as [t|]; [|discriminate].
      destruct t as [|[|d]|], r as [r|r|r]; simpl in Hs; try discriminate;
        injection Hs as <-; simpl; try reflexivity.
      destruct r as [m|st [m|data]]; simpl; try reflexivity.
      * destruct (negb (ok st)); reflexivity.
      * destruct (negb (ok st)); simpl; [|reflexivity].
        destruct (st =? 429); simpl; [|reflexivity].
        rewrite analyzeCalls_app; simpl. lia.
Qed.

(** A reachable world with a submission running: the health probe answers
    "healthy", the rate-limit probe answers "not limited", the user types
    "TCS" and clicks Analyze. A second click and an Enter key press then
    change nothing. *)
Example single_flight_reached :
  let up := {| status := Js.lit "healthy"; api_key_configured := Some true;
               offline_error := None |} in
  let clear := {| is_limited := false; message := None;
                  seconds_remaining := None |} in
  exists w,
    run initialWorld
      [Deliver 0 (HealthReply (Responded 200 (Json up)));
       Deliver 0 (RateLimitReply (Responded 200 (Json clear)));
       ChangeInput (Js.lit "TCS");
       ClickAnalyze] = Some w
    /\ outstanding (tasks w) = 1%nat
    /\ sent w = [GetHealth; GetRateLimit; PostAnalyze (Js.lit "TCS")]
    /\ run w [ClickAnalyze; KeyPress (Js.lit "Enter")] = Some w.
Proof.
  eexists. repeat split; reflexivity.
Qed.

(** ** Rate-limit tracker *)

(** C9, as stated, fails: after a probe that got no response the stored
    message reads "Rate limit check unavailable", with a capital R, which
    is not the status the spec writes. *)
Lemma checkRateLimit_failure_message :
  rateLimit (checkRateLimit_resume (Rejected (Js.lit "Failed to fetch"))
               initialState)
  <> Some spec_unavailable.
Proof.
  vm_compute; discriminate.
Qed.

(** C9, amended. After a probe that fails at the transport level the
    stored status is exactly
    [{ is_limited: false, message: 'Rate limit check unavailable' }]:
    the rate limit is not active. *)
Theorem checkRateLimit_failure (r : Fetched RateLimitData) (s : AppState) :
  transportFailure r = true ->
  rateLimit (checkRateLimit_resume r s)
  = Some {| is_limited := false;
            message := Some (Js.lit "Rate limit check unavailable");
            seconds_remaining := None |}
  /\ limited (checkRateLimit_resume r s) = false.
Proof.
  destruct r as [m|st [m|data]]; simpl; intros H;
    try discriminate; split; reflexivity.
Qed.

Lemma checkRateLimit_failure_witness :
  let s := ui (limitedFor 5) in
  let r := Responded 502 (NotJson (Js.lit "Unexpected token <")) in
  rateLimit (checkRateLimit_resume r s)
  = Some {| is_limited := false;
            message := Some (Js.lit "Rate limit check unavailable");
            seconds_remaining := None |}
  /\ limited (checkRateLimit_resume r s) = false.
Proof.
  apply (checkRateLimit_failure
           (Responded 502 (NotJson (Js.lit "Unexpected token <")))
           (ui (limitedFor 5))).
  reflexivity.
Defined.

(** C6, as stated, fails: with the countdown at 5, a probe that answers
    [is_limited: false] leaves the countdown at 5, and the next firing of
    the interval still finds it running and lowers it to 4. *)
Lemma checkRateLimit_keeps_countdown :
  let clear := {| is_limited := false; message := None;
                  seconds_remaining := None |} in
  let w := onState (checkRateLimit_resume (Responded 200 (Json clear)))
             (limitedFor 5) in
  countdown (ui (limitedFor 5)) = 5
  /\ countdown (ui w) = 5
  /\ countdown (ui w) <> 0
  /\ countdown (ui (tick w)) = 4.
Proof.
  vm_compute. repeat split; discriminate.
Qed.

(** C6, amended. A probe whose result has [is_limited] false replaces the
    stored status and leaves the countdown as it was; the countdown is no
    longer displayed, as the banner is rendered only while limited. *)
Theorem checkRateLimit_not_limited
  (st : Z) (data : RateLimitData) (s : AppState) :
  is_limited data = false ->
  let s' := checkRateLimit_resume (Responded st (Json data)) s in
  rateLimit s' = Some data
  /\ countdown s' = countdown s
  /\ countdownVisible s' = false.
Proof.
  intros H. simpl. rewrite H. simpl.
  unfold countdownVisible, limited. simpl. rewrite H.
  repeat split.
Qed.

Lemma checkRateLimit_not_limited_witness :
  let clear := {| is_limited := false; message := None;
                  seconds_remaining := None |} in
  let s' := checkRateLimit_resume (Responded 200 (Json clear))
              (ui (limitedFor 5)) in
  rateLimit s' = Some clear
  /\ countdown s' = countdown (ui (limitedFor 5))
  /\ countdownVisible s' = false.
Proof.
  apply (checkRateLimit_not_limited 200
           {| is_limited := false; message := None;
              seconds_remaining := None |}
           (ui (limitedFor 5))).
  reflexivity.
Defined.

(** *** Countdown *)

Lemma tick_running (w : World) :
  1 < countdown (ui w) ->
  tick w = onState (setCountdown (countdown (ui w) - 1)) w.
Proof.
  intros H. unfold tick.
  destruct (Z.ltb_spec 0 (countdown (ui w))); [|lia].
  destruct (Z.leb_spec (countdown (ui w)) 1); [lia|reflexivity].
Qed.

Lemma tick_expiry (w : World) :
  countdown (ui w) = 1 ->
  tick w = onState (setCountdown 0) (checkRateLimit w).
Proof.
  intros H. unfold tick. rewrite H. reflexivity.
Qed.

Lemma tick_stopped (w : World) :
  countdown (ui w) <= 0 -> tick w = w.
Proof.
  intros H. unfold tick.
  destruct (Z.ltb_spec 0 (countdown (ui w))); [lia|reflexivity].
Qed.

Lemma ticks_stopped (k : nat) (w : World) :
  countdown (ui w) <= 0 -> ticks k w = w.
Proof.
  intros H. induction k as [|k IH]; simpl; [reflexivity|].
  rewrite tick_stopped by exact H. exact IH.
Qed.

(** C7. A countdown started at [n > 0]: each firing of the interval before
    the [n]-th lowers it by one and issues nothing; the [n]-th firing sets
    it to 0 and issues one [/rate-limit] probe; however many firings
    follow, the countdown stays at 0 and that probe stays the only one. *)
Theorem countdown_expiry (n : Z) (w : World) (k : nat) :
  0 < n -> countdown (ui w) = n ->
  (Z.of_nat k < n ->
     countdown (ui (ticks k w)) = n - Z.of_nat k
     /\ sent (ticks k w) = sent w
     /\ tasks (ticks k w) = tasks w)
  /\ (n <= Z.of_nat k ->
     countdown (ui (ticks k w)) = 0
     /\ sent (ticks k w) = sent w ++ [GetRateLimit]
     /\ tasks (ticks k w) = tasks w ++ [AwaitRateLimit Standalone]).
Proof.
  revert n w. induction k as [|k IH]; intros n w Hn Hw.
  - simpl. split; intros H; [|lia].
    repeat split. lia.
  - cbn [ticks]. destruct (Z.eq_dec n 1) as [->|Hne].
    + rewrite (tick_expiry w Hw). split; intros H; [lia|].
      rewrite ticks_stopped by (simpl; lia).
      repeat split.
    + rewrite tick_running by lia.
      destruct (IH (n - 1) (onState (setCountdown (countdown (ui w) - 1)) w))
        as [IH1 IH2]; [lia | simpl; lia |].
      split; intros H.
      * destruct IH1 as (Hc & Hsn & Ht); [lia|].
        rewrite Hc, Hsn, Ht. repeat split. lia.
      * destruct IH2 as (Hc & Hsn & Ht); [lia|].
        rewrite Hc, Hsn, Ht. repeat split.
Qed.

Lemma countdown_expiry_witness :
  let w := limitedFor 5 in
  (countdown (ui (ticks 4 w)) = 5 - Z.of_nat 4
   /\ sent (ticks 4 w) = sent w
   /\ tasks (ticks 4 w) = tasks w)
  /\ (countdown (ui (ticks 7 w)) = 0
   /\ sent (ticks 7 w) = sent w ++ [GetRateLimit]
   /\ tasks (ticks 7 w) = tasks w ++ [AwaitRateLimit Standalone]).
Proof.
  split.
  - apply (proj1 (countdown_expiry 5 (limitedFor 5) 4 ltac:(lia) eq_refl)).
    simpl; lia.
  - apply (proj2 (countdown_expiry 5 (limitedFor 5) 7 ltac:(lia) eq_refl)).
    simpl; lia.
Defined.

(** ** Rate-limited submissions *)

Lemma nth_error_middle {A} (l1 l2 : list A) (x : A) :
  nth_error (l1 ++ x :: l2) (List.length l1) = Some x.
Proof.
  induction l1 as [|y l1 IH]; simpl; [reflexivity | exact IH].
Qed.

Lemma remove_nth_middle {A} (l1 l2 : list A) (x : A) :
  remove_nth (List.length l1) (l1 ++ x :: l2) = l1 ++ l2.
Proof.
  unfold remove_nth.
  induction l1 as [|y l1 IH]; simpl; [reflexivity|].
  f_equal. exact IH.
Qed.

Lemma remove_nth_last {A} (l : list A) (x : A) :
  remove_nth (List.length l) (l ++ [x]) = l.
Proof.
  rewrite remove_nth_middle. apply app_nil_r.
Qed.

(** C3, as stated, fails, in two ways. A 429 whose body is not JSON issues
    no probe at all: the log is unchanged and the submission ends at once.
    A 429 whose detail mentions "API key" does issue one probe, but the
    message it ends with is the fixed API-key one, which does not carry
    the detail. *)
Lemma analyzeStock_429_exceptions :
  let w := analyzeStock (typed (Js.lit "TCS")) in
  let quota := Js.lit "API key quota exceeded" in
  let clear := {| is_limited := false; message := None;
                  seconds_remaining := None |} in
  tasks w = [AwaitAnalyze]
  /\ (exists w1,
        step w (Deliver 0 (AnalyzeReply
                  (Responded 429 (NotJson (Js.lit "Unexpected token <")))))
        = Some w1
        /\ sent w1 = sent w /\ tasks w1 = [] /\ loading (ui w1) = false)
  /\ (exists w2,
        run w [Deliver 0 (AnalyzeReply
                 (Responded 429 (Json (ErrorData (Some quota)))));
               Deliver 0 (RateLimitReply (Responded 200 (Json clear)))]
        = Some w2
        /\ sent w2 = sent w ++ [GetRateLimit]
        /\ error (ui w2) = warningSign ++ Js.lit " API key not configured."
        /\ Js.includes (error (ui w2)) quota = false).
Proof.
  split; [reflexivity|]. split; eexists; repeat split; reflexivity.
Qed.

(** C3, amended. When the reply to a pending submission has status 429 and
    a JSON body, the controller issues exactly one [/rate-limit] probe and
    stays pending until the probe is answered; whatever the answer, the
    submission then ends with [loading] cleared, no further request, and
    the message the [catch] block computes from the server's detail (or
    from "Analysis failed" when the detail is absent or empty). That
    message is "Analysis error occurred. " followed by the detail, unless
    the detail contains "Failed to fetch" or "API key". *)
Theorem analyzeStock_429
  (w : World) (ts1 ts2 : list Task) (errorData : AnalyzeJson)
  (r : Fetched RateLimitData) :
  tasks w = ts1 ++ AwaitAnalyze :: ts2 ->
  let msg := detail_or_default (detail_of errorData) in
  exists w1 w2,
    step w (Deliver (List.length ts1)
              (AnalyzeReply (Responded 429 (Json errorData)))) = Some w1
    /\ sent w1 = sent w ++ [GetRateLimit]
    /\ ui w1 = ui w
    /\ step w1 (Deliver (List.length (ts1 ++ ts2)) (RateLimitReply r)) = Some w2
    /\ sent w2 = sent w ++ [GetRateLimit]
    /\ tasks w2 = ts1 ++ ts2
    /\ loading (ui w2) = false
    /\ error (ui w2) = errorMessage msg
    /\ (Js.includes msg (Js.lit "Failed to fetch") = false ->
        Js.includes msg (Js.lit "API key") = false ->
        error (ui w2) = Js.lit "Analysis error occurred. " ++ msg).
Proof.
  intros Ht msg.
  eexists. eexists.
  split.
  { simpl. rewrite Ht, nth_error_middle, remove_nth_middle. simpl.
    reflexivity. }
  split; [reflexivity|]. split; [reflexivity|].
  split.
  { simpl. rewrite nth_error_middle, remove_nth_last. simpl. reflexivity. }
  split; [reflexivity|]. split; [reflexivity|]. split; [reflexivity|].
  split; [reflexivity|].
  intros H1 H2. simpl. unfold errorMessage. fold msg.
  rewrite H1, H2. reflexivity.
Qed.

Lemma analyzeStock_429_witness :
  let w := analyzeStock (typed (Js.lit "TCS")) in
  let msg := Js.lit "Rate limit exceeded" in
  let r := Responded 200
             (Json {| is_limited := true;
                      message := Some (Js.lit "Try again later");
                      seconds_remaining := Some 30 |}) in
  exists w1 w2,
    step w (Deliver 0
              (AnalyzeReply (Responded 429 (Json (ErrorData (Some msg))))))
    = Some w1
    /\ sent w1 = sent w ++ [GetRateLimit]
    /\ ui w1 = ui w
    /\ step w1 (Deliver 0 (RateLimitReply r)) = Some w2
    /\ sent w2 = sent w ++ [GetRateLimit]
    /\ tasks w2 = []
    /\ loading (ui w2) = false
    /\ error (ui w2) = errorMessage msg
    /\ (Js.includes msg (Js.lit "Failed to fetch") = false ->
        Js.includes msg (Js.lit "API key") = false ->
        error (ui w2) = Js.lit "Analysis error occurred. " ++ msg).
Proof.
  apply (analyzeStock_429 (analyzeStock (typed (Js.lit "TCS"))) [] []
           (ErrorData (Some (Js.lit "Rate limit exceeded")))).
  reflexivity.
Defined.

(** * Further properties *)

(** ** Guidance and score bar against the tier *)

(** X1. The guidance shown is fixed by the tier of the badge, and by the
    label in the STRONG tier only: at most one block is rendered, exactly
    one outside the STRONG tier, whatever the label; this holds for every
    integer confidence, also outside [0,100]. *)
Theorem guidanceBlocks_by_tier (a : Analysis) :
  guidanceBlocks a =
  match strengthTier (consensus_confidence a) with
  | STRONG =>
      if Js.eqb (consensus_recommendation a) BUY then [StrongBuy] else []
  | MODERATE_STRONG => [StrongHold]
  | MODERATE => [ModerateHold]
  | WEAK => [ConsiderSelling]
  | STRONG_CAUTION => [StrongSell]
  end.
Proof.
  unfold guidanceBlocks, strengthTier.
  destruct (Z.geb_spec (consensus_confidence a) 75);
    destruct (Z.geb_spec (consensus_confidence a) 60); try lia;
    destruct (Z.geb_spec (consensus_confidence a) 45); try lia;
    destruct (Z.geb_spec (consensus_confidence a) 30); try lia;
    destruct (Z.ltb_spec (consensus_confidence a) 75); try lia;
    destruct (Z.ltb_spec (consensus_confidence a) 60); try lia;
    destruct (Z.ltb_spec (consensus_confidence a) 45); try lia;
    destruct (Z.ltb_spec (consensus_confidence a) 30); try lia;
    simpl; try reflexivity.
  destruct (Js.eqb (consensus_recommendation a) BUY); reflexivity.
Qed.

(** X2. The score bar's gradient follows the badge's tier: green for
    STRONG, yellow-to-green for MODERATE-STRONG, yellow for MODERATE, and
    the same red-to-orange for both WEAK and STRONG CAUTION, as the bar has
    no threshold at 30. *)
Theorem barClass_by_tier (confidence : Z) :
  barClass confidence =
  match strengthTier confidence with
  | STRONG => Js.lit "bg-gradient-to-r from-green-500 to-green-400"
  | MODERATE_STRONG => Js.lit "bg-gradient-to-r from-yellow-500 to-green-400"
  | MODERATE => Js.lit "bg-gradient-to-r from-yellow-500 to-yellow-400"
  | WEAK | STRONG_CAUTION => Js.lit "bg-gradient-to-r from-red-500 to-orange-400"
  end.
Proof.
  unfold barClass, strengthTier.
  destruct (confidence >=? 75); [reflexivity|].
  destruct (confidence >=? 60); [reflexivity|].
  destruct (confidence >=? 45); [reflexivity|].
  destruct (confidence >=? 30); reflexivity.
Qed.

(** ** The countdown text *)

Lemma lit_inj (s t : string) : Js.lit s = Js.lit t -> s = t.
Proof.
  unfold Js.lit. revert t.
  induction s as [|a s IH]; intros [|b t] H; simpl in H;
    try discriminate; [reflexivity|].
  injection H as Hab Hst.
  apply (f_equal ascii_of_N) in Hab.
  rewrite !ascii_N_embedding in Hab. subst b.
  f_equal. apply IH; exact Hst.
Qed.

Lemma toString_inj (m n : Z) : toString m = toString n -> m = n.
Proof.
  unfold toString. intros H. apply lit_inj in H.
  apply DecimalZ.to_int_inj.
  assert (Hnil : forall z, Z.to_int z <> Decimal.Pos Decimal.Nil
                           /\ Z.to_int z <> Decimal.Neg Decimal.Nil).
  { intros z. pose proof (DecimalZ.to_of (Z.to_int z)) as Hz.
    rewrite DecimalZ.of_to in Hz.
    split; intros E; rewrite E in Hz; discriminate. }
  pose proof (NilZero.isi (Z.to_int m) (proj1 (Hnil m)) (proj2 (Hnil m))) as Hm.
  pose proof (NilZero.isi (Z.to_int n) (proj1 (Hnil n)) (proj2 (Hnil n))) as Hn'.
  rewrite H in Hm. rewrite Hm in Hn'. injection Hn' as ->. reflexivity.
Qed.

(** The two characters of a seconds field: tens digit, units digit. *)
Lemma seconds_field (r : Z) :
  0 <= r < 60 ->
  padStart 2 (Js.lit "0") (toString r)
  = [Z.to_N (48 + r / 10); Z.to_N (48 + r mod 10)].
Proof.
  intros Hr.
  assert (Hall : forallb
            (fun k => Js.eqb
               (padStart 2 (Js.lit "0") (toString (Z.of_nat k)))
               [Z.to_N (48 + Z.of_nat k / 10); Z.to_N (48 + Z.of_nat k mod 10)])
            (seq 0 60) = true) by (vm_compute; reflexivity).
  rewrite forallb_forall in Hall.
  specialize (Hall (Z.to_nat r)).
  rewrite Z2Nat.id in Hall by lia.
  apply JsFacts.eqb_eq. apply Hall.
  apply in_seq. lia.
Qed.

Lemma countdownText_digits (c : Z) :
  0 < c ->
  countdownText c
  = toString (c / 60) ++ Js.lit ":"
    ++ [Z.to_N (48 + (c mod 60) / 10); Z.to_N (48 + (c mod 60) mod 10)].
Proof.
  intros Hc. unfold countdownText.
  rewrite Z.rem_mod_nonneg by lia.
  rewrite seconds_field by (apply Z.mod_pos_bound; lia).
  reflexivity.
Qed.

(** X3. For a positive countdown (a safe integer) the text is the floored
    number of minutes, a colon, and the seconds as exactly two decimal
    digits, zero-padded. *)
Theorem countdownText_format (c : Z) :
  0 < c <= MAX_SAFE_INTEGER ->
  countdownText c
  = toString (c / 60) ++ Js.lit ":"
    ++ [Z.to_N (48 + (c mod 60) / 10); Z.to_N (48 + (c mod 60) mod 10)].
Proof.
  intros [Hc _]. apply countdownText_digits; exact Hc.
Qed.

Lemma countdownText_format_witness :
  countdownText 125 = Js.lit "2:05"
  /\ countdownText 125
     = toString (125 / 60) ++ Js.lit ":"
       ++ [Z.to_N (48 + (125 mod 60) / 10); Z.to_N (48 + (125 mod 60) mod 10)].
Proof.
  split; [reflexivity|].
  apply (countdownText_format 125). unfold MAX_SAFE_INTEGER; lia.
Defined.

Lemma text_split (m1 m2 sep : jsstring) (a1 b1 a2 b2 : N) :
  m1 ++ sep ++ [a1; b1] = m2 ++ sep ++ [a2; b2] ->
  m1 = m2 /\ a1 = a2 /\ b1 = b2.
Proof.
  intros H. apply (f_equal (@rev N)) in H.
  rewrite !rev_app_distr in H. cbn [rev app] in H.
  injection H as Hb Ha H.
  apply app_inv_head in H.
  apply (f_equal (@rev N)) in H. rewrite !rev_involutive in H.
  auto.
Qed.

(** X4. Two different positive countdowns (safe integers) are never
    displayed as the same text. *)
Theorem countdownText_injective (c1 c2 : Z) :
  0 < c1 <= MAX_SAFE_INTEGER -> 0 < c2 <= MAX_SAFE_INTEGER ->
  countdownText c1 = countdownText c2 -> c1 = c2.
Proof.
  intros [H1 _] [H2 _] H.
  rewrite (countdownText_digits c1), (countdownText_digits c2) in H
    by assumption.
  apply text_split in H. destruct H as (H & Ht & Hu).
  apply toString_inj in H.
  pose proof (Z.mod_pos_bound c1 60 ltac:(lia)) as B1.
  pose proof (Z.mod_pos_bound c2 60 ltac:(lia)) as B2.
  pose proof (Z.mod_pos_bound (c1 mod 60) 10 ltac:(lia)).
  pose proof (Z.mod_pos_bound (c2 mod 60) 10 ltac:(lia)).
  assert (0 <= (c1 mod 60) / 10) by (apply Z.div_pos; lia).
  assert (0 <= (c2 mod 60) / 10) by (apply Z.div_pos; lia).
  apply (f_equal Z.of_N) in Hu. apply (f_equal Z.of_N) in Ht.
  rewrite 2!Z2N.id in Hu by lia. rewrite 2!Z2N.id in Ht by lia.
  pose proof (Z.div_mod c1 60 ltac:(lia)).
  pose proof (Z.div_mod c2 60 ltac:(lia)).
  pose proof (Z.div_mod (c1 mod 60) 10 ltac:(lia)).
  pose proof (Z.div_mod (c2 mod 60) 10 ltac:(lia)).
  lia.
Qed.

Lemma countdownText_injective_witness :
  countdownText 125 = Js.lit "2:05" /\ 125 = 125.
Proof.
  split; [reflexivity|].
  apply (countdownText_injective 125 125);
    [unfold MAX_SAFE_INTEGER; lia | unfold MAX_SAFE_INTEGER; lia | reflexivity].
Defined.

(** ** Invariants of the event loop *)

Lemma run_invariant (P : World -> Prop) :
  (forall w w' e, P w -> step w e = Some w' -> P w') ->
  forall es w w', P w -> run w es = Some w' -> P w'.
Proof.
  intros Hstep. induction es as [|e es IH]; simpl; intros w w' Hw Hr.
  - injection Hr as <-. exact Hw.
  - destruct (step w e) as [w1|] eqn:Hs; [|discriminate].
    apply (IH w1 w'); [|exact Hr].
    apply (Hstep w w1 e); assumption.
Qed.

Lemma run_app (es1 es2 : list Event) (w : World) :
  run w (es1 ++ es2)
  = match run w es1 with
    | Some w1 => run w1 es2
    | None => None
    end.
Proof.
  revert w. induction es1 as [|e es1 IH]; simpl; intros w; [reflexivity|].
  destruct (step w e) as [w1|]; [apply IH | reflexivity].
Qed.

(** *** What a pending submission shows *)

Lemma lastAnalyze_app (l1 l2 : list Request) :
  lastAnalyze (l1 ++ l2)
  = match lastAnalyze l2 with
    | Some v => Some v
    | None => lastAnalyze l1
    end.
Proof.
  induction l1 as [|rq l1 IH]; simpl.
  - destruct (lastAnalyze l2); reflexivity.
  - rewrite IH. destruct (lastAnalyze l2), (lastAnalyze l1), rq; reflexivity.
Qed.

Lemma analyzeStock_pendingClean (w : World) :
  loading (ui w) = false -> pendingClean (analyzeStock w).
Proof.
  intros Hl. unfold pendingClean, analyzeStock.
  destruct (Js.truthy (Js.trim (stockName (ui w)))); simpl.
  - intros _. rewrite lastAnalyze_app. simpl. repeat split.
  - rewrite Hl. discriminate.
Qed.

Lemma step_pendingClean (w w' : World) (e : Event) :
  pendingClean w -> step w e = Some w' -> pendingClean w'.
Proof.
  intros Hw Hs. destruct e as [v|key| | | |i r]; simpl in Hs.
  - injection Hs as <-. unfold changeInput.
    destruct (loading (ui w)) eqn:Hl; [exact Hw|].
    unfold pendingClean; simpl. rewrite Hl. discriminate.
  - injection Hs as <-. unfold handleKeyPress.
    destruct (loading (ui w)) eqn:Hl;
      [rewrite andb_false_r; exact Hw|].
    destruct (Js.eqb key (Js.lit "Enter") && negb false
              && healthy (ui w) && negb (limited (ui w))); [|exact Hw].
    apply analyzeStock_pendingClean; exact Hl.
  - injection Hs as <-. unfold clickAnalyze, analyzeDisabled.
    destruct (loading (ui w)) eqn:Hl; [exact Hw|]. simpl.
    destruct (negb (healthy (ui w)) || limited (ui w)); [exact Hw|].
    apply analyzeStock_pendingClean; exact Hl.
  - injection Hs as <-. unfold clickRefresh.
    destruct (limited (ui w)); [|exact Hw].
    unfold pendingClean in *; simpl. rewrite lastAnalyze_app. exact Hw.
  - injection Hs as <-. unfold tick.
    destruct (0 <? countdown (ui w)); [|exact Hw].
    destruct (countdown (ui w) <=? 1); unfold pendingClean in *; simpl.
    + rewrite lastAnalyze_app. exact Hw.
    + exact Hw.
  - destruct (nth_error (tasks w) i) as [t|]; [|discriminate].
    destruct t as [|[|d]|], r as [r|r|r]; simpl in Hs; try discriminate;
      injection Hs as <-; unfold pendingClean in *; simpl.
    + destruct r as [m|st [m|data]]; exact Hw.
    + destruct r as [m|st [m|data]]; simpl; try exact Hw.
      destruct (is_limited data && seconds_truthy data); exact Hw.
    + discriminate.
    + destruct r as [m|st [m|data]]; simpl; try discriminate.
      * destruct (negb (ok st)); simpl; discriminate.
      * destruct (negb (ok st)); simpl; [|discriminate].
        destruct (st =? 429); simpl; [|discriminate].
        rewrite lastAnalyze_app. exact Hw.
Qed.

(** X5. In every world the component can reach, while a submission is
    pending no result and no error are on screen, and the input box
    holds exactly the name that the latest [/analyze] request carries. *)
Theorem pending_is_clean (es : list Event) (w : World) :
  run initialWorld es = Some w ->
  loading (ui w) = true ->
  analysis (ui w) = None
  /\ error (ui w) = []
  /\ lastAnalyze (sent w) = Some (stockName (ui w)).
Proof.
  intros Hr.
  apply (run_invariant pendingClean step_pendingClean es initialWorld w);
    [|exact Hr].
  unfold pendingClean. simpl. discriminate.
Qed.

Lemma pending_is_clean_witness :
  exists w,
    run initialWorld (submitTCS ++ [ChangeInput (Js.lit "INFY"); Tick])
    = Some w
    /\ analysis (ui w) = None
    /\ error (ui w) = []
    /\ lastAnalyze (sent w) = Some (stockName (ui w))
    /\ stockName (ui w) = Js.lit "TCS".
Proof.
  eexists. split; [reflexivity|].
  assert (H := pending_is_clean
                 (submitTCS ++ [ChangeInput (Js.lit "INFY"); Tick])
                 _ eq_refl eq_refl).
  destruct H as (Ha & He & Hl).
  split; [exact Ha|]. split; [exact He|]. split; [exact Hl|].
  reflexivity.
Defined.

(** *** The health probe *)

Lemma healthCalls_app (l1 l2 : list Request) :
  healthCalls (l1 ++ l2) = (healthCalls l1 + healthCalls l2)%nat.
Proof.
  induction l1 as [|rq l1 IH]; simpl; [reflexivity|].
  destruct rq; simpl; rewrite IH; reflexivity.
Qed.

Lemma awaitingHealth_app (l1 l2 : list Task) :
  awaitingHealth (l1 ++ l2) = (awaitingHealth l1 + awaitingHealth l2)%nat.
Proof.
  induction l1 as [|t l1 IH]; simpl; [reflexivity|].
  destruct t; simpl; rewrite IH; reflexivity.
Qed.

Lemma awaitingHealth_remove_nth (l : list Task) (i : nat) (t : Task) :
  nth_error l i = Some t ->
  awaitingHealth l
  = (awaitingHealth [t] + awaitingHealth (remove_nth i l))%nat.
Proof.
  revert i; induction l as [|u l IH]; intros [|i] H; simpl in H;
    try discriminate.
  - injection H as ->. unfold remove_nth; simpl.
    destruct t; reflexivity.
  - specialize (IH i H). unfold remove_nth in *; simpl in *.
    destruct u; simpl; rewrite IH; destruct t; simpl; lia.
Qed.

Lemma healthy_backendStatus (s : AppState) :
  healthy s = true -> exists d, backendStatus s = Some d.
Proof.
  unfold healthy. destruct (backendStatus s) as [d|]; [|discriminate].
  intros _. exists d. reflexivity.
Qed.

Lemma analyzeStock_healthOnce (w : World) :
  healthy (ui w) = true -> healthOnce w -> healthOnce (analyzeStock w).
Proof.
  intros Hh (Hc & Hb).
  destruct (healthy_backendStatus _ Hh) as [d Hd].
  unfold healthOnce, analyzeStock. rewrite Hd in Hb.
  destruct (Js.truthy (Js.trim (stockName (ui w)))); simpl.
  - rewrite healthCalls_app, awaitingHealth_app, Hd, Hc; simpl.
    split; [lia|]. split; [lia|]. right.
    unfold healthy in *; simpl. exact Hh.
  - rewrite Hd. split; [exact Hc|]. split; [tauto|].
    destruct Hb as [_ [H0|_]]; [left; exact H0|right].
    unfold healthy in *; simpl. exact Hh.
Qed.

(** Appending a rate-limit probe changes none of the health counts. *)
Lemma checkRateLimit_from_healthOnce (c : ProbeCaller) (w : World) :
  healthOnce w -> healthOnce (checkRateLimit_from c w).
Proof.
  intros (Hc & Hb). unfold healthOnce, healthy; simpl.
  rewrite healthCalls_app, awaitingHealth_app, analyzeCalls_app; simpl.
  rewrite !Nat.add_0_r. split; [exact Hc|].
  unfold healthy in Hb. exact Hb.
Qed.

Lemma onState_healthOnce (f : AppState -> AppState) (w : World) :
  (forall s, backendStatus (f s) = backendStatus s) ->
  healthOnce w -> healthOnce (onState f w).
Proof.
  intros Hf (Hc & Hb). unfold healthOnce, healthy; simpl.
  rewrite Hf. split; [exact Hc|]. unfold healthy in Hb. exact Hb.
Qed.

Lemma backendStatus_checkRateLimit_resume
  (r : Fetched RateLimitData) (s : AppState) :
  backendStatus (checkRateLimit_resume r s) = backendStatus s.
Proof.
  destruct r as [m|st [m|data]]; simpl; try reflexivity.
  destruct (is_limited data && seconds_truthy data); reflexivity.
Qed.

Lemma step_healthOnce (w w' : World) (e : Event) :
  healthOnce w -> step w e = Some w' -> healthOnce w'.
Proof.
  intros Hw Hs. destruct e as [v|key| | | |i r]; simpl in Hs.
  - injection Hs as <-. unfold changeInput.
    destruct (loading (ui w)); [exact Hw|].
    apply onState_healthOnce; [reflexivity | exact Hw].
  - injection Hs as <-. unfold handleKeyPress.
    destruct (healthy (ui w)) eqn:Hh;
      [|rewrite andb_false_r; exact Hw].
    destruct (Js.eqb key (Js.lit "Enter") && negb (loading (ui w))
              && true && negb (limited (ui w))); [|exact Hw].
    apply analyzeStock_healthOnce; assumption.
  - injection Hs as <-. unfold clickAnalyze, analyzeDisabled.
    destruct (healthy (ui w)) eqn:Hh;
      [|simpl; rewrite orb_true_r; exact Hw].
    destruct (loading (ui w) || negb true || limited (ui w)); [exact Hw|].
    apply analyzeStock_healthOnce; assumption.
  - injection Hs as <-. unfold clickRefresh.
    destruct (limited (ui w)); [|exact Hw].
    apply checkRateLimit_from_healthOnce; exact Hw.
  - injection Hs as <-. unfold tick.
    destruct (0 <? countdown (ui w)); [|exact Hw].
    destruct (countdown (ui w) <=? 1).
    + apply onState_healthOnce; [reflexivity|].
      apply checkRateLimit_from_healthOnce; exact Hw.
    + apply onState_healthOnce; [reflexivity | exact Hw].
  - destruct (nth_error (tasks w) i) as [t|] eqn:Ht; [|discriminate].
    pose proof (awaitingHealth_remove_nth _ _ _ Ht) as Ho.
    destruct Hw as (Hc & Hb).
    destruct t as [|[|d]|], r as [r|r|r]; simpl in Hs; try discriminate;
      injection Hs as <-; simpl in Ho.
    + destruct (backendStatus (ui w)) as [d|] eqn:Hd; [lia|].
      destruct Hb as (Hb1 & Hb2).
      unfold healthOnce; simpl. split; [exact Hc|].
      destruct r as [m|st [m|data]]; simpl; split; auto; lia.
    + apply onState_healthOnce;
        [intros s; apply backendStatus_checkRateLimit_resume|].
      unfold healthOnce; simpl. rewrite <- Ho. split; assumption.
    + apply onState_healthOnce.
      { intros s. simpl. apply backendStatus_checkRateLimit_resume. }
      unfold healthOnce; simpl. rewrite <- Ho. split; assumption.
    + assert (Hrest : healthOnce
                {| ui := ui w; sent := sent w;
                   tasks := remove_nth i (tasks w) |}).
      { unfold healthOnce; simpl. rewrite <- Ho. split; assumption. }
      destruct r as [m|st [m|data]]; cbn [analyzeStock_resume].
      * apply onState_healthOnce; [reflexivity | exact Hrest].
      * destruct (negb (ok st));
          (apply onState_healthOnce; [reflexivity | exact Hrest]).
      * destruct (negb (ok st)).
        -- destruct (st =? 429).
           ++ apply checkRateLimit_from_healthOnce; exact Hrest.
           ++ apply onState_healthOnce; [reflexivity | exact Hrest].
        -- apply onState_healthOnce; [reflexivity | exact Hrest].
Qed.

Lemma healthOnce_initialWorld : healthOnce initialWorld.
Proof.
  unfold healthOnce. simpl. auto.
Qed.

(** X6. The health probe is sent exactly once, at mount: in every world
    the component can reach, the log holds one [/health] request. *)
Theorem health_probed_once (es : list Event) (w : World) :
  run initialWorld es = Some w -> healthCalls (sent w) = 1%nat.
Proof.
  intros Hr.
  apply (run_invariant healthOnce step_healthOnce es initialWorld w
           healthOnce_initialWorld Hr).
Qed.

Lemma health_probed_once_witness :
  exists w,
    run initialWorld (submitTCS ++ [Tick; ClickRefresh]) = Some w
    /\ healthCalls (sent w) = 1%nat.
Proof.
  eexists. split; [reflexivity|].
  apply (health_probed_once (submitTCS ++ [Tick; ClickRefresh])).
  reflexivity.
Defined.

(** X7. Nothing is submitted without a healthy backend: in every world
    the component can reach, if the log holds an [/analyze] request then
    the stored health status is "healthy". *)
Theorem analyze_requires_healthy (es : list Event) (w : World) :
  run initialWorld es = Some w ->
  (0 < analyzeCalls (sent w))%nat ->
  healthy (ui w) = true.
Proof.
  intros Hr Ha.
  destruct (run_invariant healthOnce step_healthOnce es initialWorld w
              healthOnce_initialWorld Hr) as (_ & Hb).
  destruct (backendStatus (ui w)) as [d|].
  - destruct Hb as (_ & [H0 | Hh]); [lia | exact Hh].
  - destruct Hb as (_ & H0). lia.
Qed.

Lemma analyze_requires_healthy_witness :
  exists w,
    run initialWorld submitTCS = Some w
    /\ (0 < analyzeCalls (sent w))%nat
    /\ healthy (ui w) = true.
Proof.
  eexists. split; [reflexivity|].
  split; [simpl; lia|].
  apply (analyze_requires_healthy submitTCS); [reflexivity | simpl; lia].
Defined.

Lemma step_keeps_backendStatus (w w' : World) (e : Event) (d : HealthData) :
  awaitingHealth (tasks w) = 0%nat ->
  backendStatus (ui w) = Some d ->
  step w e = Some w' ->
  backendStatus (ui w') = Some d.
Proof.
  intros H0 Hd Hs. destruct e as [v|key| | | |i r]; simpl in Hs.
  - injection Hs as <-. unfold changeInput.
    destruct (loading (ui w)); exact Hd.
  - injection Hs as <-. unfold handleKeyPress, analyzeStock.
    destruct (_ && _ && _ && _); [|exact Hd].
    destruct (negb _); exact Hd.
  - injection Hs as <-. unfold clickAnalyze, analyzeStock.
    destruct (analyzeDisabled (ui w)); [exact Hd|].
    destruct (negb _); exact Hd.
  - injection Hs as <-. unfold clickRefresh.
    destruct (limited (ui w)); exact Hd.
  - injection Hs as <-. unfold tick.
    destruct (0 <? countdown (ui w)); [|exact Hd].
    destruct (countdown (ui w) <=? 1); exact Hd.
  - destruct (nth_error (tasks w) i) as [t|] eqn:Ht; [|discriminate].
    pose proof (awaitingHealth_remove_nth _ _ _ Ht) as Ho.
    destruct t as [|[|c]|], r as [r|r|r]; simpl in Hs; try discriminate;
      injection Hs as <-; simpl in Ho; simpl.
    + lia.
    + rewrite backendStatus_checkRateLimit_resume. exact Hd.
    + rewrite backendStatus_checkRateLimit_resume. exact Hd.
    + destruct r as [m|st [m|data]]; simpl; try exact Hd.
      * destruct (negb (ok st)); exact Hd.
      * destruct (negb (ok st)); [|exact Hd].
        destruct (st =? 429); exact Hd.
Qed.

(** X8. An unhealthy answer is final for the session: once the health
    probe has been answered with a status other than "healthy" (or has
    failed, which stores "offline"), the stored status never changes and
    no [/analyze] request is ever sent, whatever the user does and
    whatever the rate-limit probes answer. *)
Theorem unhealthy_is_final
  (es es' : list Event) (w w' : World) (d : HealthData) :
  run initialWorld es = Some w ->
  backendStatus (ui w) = Some d ->
  status d <> Js.lit "healthy" ->
  run w es' = Some w' ->
  backendStatus (ui w') = Some d
  /\ analyzeCalls (sent w') = 0%nat.
Proof.
  intros Hr Hd Hs Hr'.
  assert (Hkeep : healthOnce w' /\ backendStatus (ui w') = Some d).
  { apply (run_invariant
             (fun x => healthOnce x /\ backendStatus (ui x) = Some d))
      with (es := es') (w := w); [| |exact Hr'].
    - intros x x' e (Hx & Hxd) Hstep. split.
      + apply (step_healthOnce x x' e); assumption.
      + destruct Hx as (_ & Hb). rewrite Hxd in Hb.
        apply (step_keeps_backendStatus x x' e d); tauto.
    - split; [|exact Hd].
      apply (run_invariant healthOnce step_healthOnce es initialWorld w
               healthOnce_initialWorld Hr). }
  destruct Hkeep as ((_ & Hb) & Hd'). split; [exact Hd'|].
  rewrite Hd' in Hb. destruct Hb as (_ & [H0 | Hh]); [exact H0|].
  unfold healthy in Hh. rewrite Hd' in Hh.
  apply JsFacts.eqb_eq in Hh. contradiction.
Qed.

Lemma unhealthy_is_final_witness :
  let down := Deliver 0 (HealthReply (Rejected (Js.lit "Failed to fetch"))) in
  let clear := Deliver 0 (RateLimitReply (Responded 200 (Json clearData))) in
  exists w w',
    run initialWorld [down; clear] = Some w
    /\ run w [ChangeInput (Js.lit "TCS"); ClickAnalyze;
              KeyPress (Js.lit "Enter")] = Some w'
    /\ backendStatus (ui w') = Some (offline (Js.lit "Failed to fetch"))
    /\ analyzeCalls (sent w') = 0%nat.
Proof.
  eexists. eexists. split; [reflexivity|]. split; [reflexivity|].
  eapply unhealthy_is_final with
    (es := [Deliver 0 (HealthReply (Rejected (Js.lit "Failed to fetch")));
            Deliver 0 (RateLimitReply (Responded 200 (Json clearData)))])
    (es' := [ChangeInput (Js.lit "TCS"); ClickAnalyze;
             KeyPress (Js.lit "Enter")]);
    try reflexivity.
  vm_compute; discriminate.
Defined.



(** ** Submission paths *)

(** X10. With a healthy backend, no active rate limit, no pending
    submission and an input that is not blank, a click on Analyze and the
    Enter key each issue exactly one [/analyze] request carrying the input
    and make the submission pending; a key other than Enter never
    submits. *)
Theorem submission_allowed (w : World) :
  healthy (ui w) = true -> limited (ui w) = false ->
  loading (ui w) = false -> Js.trim (stockName (ui w)) <> [] ->
  sent (clickAnalyze w) = sent w ++ [PostAnalyze (stockName (ui w))]
  /\ loading (ui (clickAnalyze w)) = true
  /\ handleKeyPress (Js.lit "Enter") w = clickAnalyze w
  /\ (forall key, key <> Js.lit "Enter" -> handleKeyPress key w = w).
Proof.
  intros Hh Hl Hp Hn.
  unfold clickAnalyze, handleKeyPress, analyzeDisabled.
  rewrite Hh, Hl, Hp. simpl.
  unfold analyzeStock.
  destruct (Js.trim (stockName (ui w))) as [|c t]; [congruence|]. simpl.
  repeat split.
  intros key Hk. apply JsFacts.eqb_neq in Hk.
  rewrite Hk. reflexivity.
Qed.

Lemma submission_allowed_witness :
  let w := typed (Js.lit "TCS") in
  sent (clickAnalyze w) = sent w ++ [PostAnalyze (stockName (ui w))]
  /\ loading (ui (clickAnalyze w)) = true
  /\ handleKeyPress (Js.lit "Enter") w = clickAnalyze w
  /\ (forall key, key <> Js.lit "Enter" -> handleKeyPress key w = w).
Proof.
  apply (submission_allowed (typed (Js.lit "TCS"))); try reflexivity.
  vm_compute; discriminate.
Defined.

Lemma single_flight_witness :
  exists w,
    run initialWorld submitTCS = Some w
    /\ (outstanding (tasks w) <= 1)%nat
    /\ (forall e w', outstanding (tasks w) = 1%nat -> step w e = Some w' ->
          analyzeCalls (sent w') = analyzeCalls (sent w)).
Proof.
  eexists. split; [reflexivity|].
  apply (single_flight submitTCS). reflexivity.
Defined.

(** ** How a submission ends *)

Lemma errorMessage_nonempty (m : jsstring) : errorMessage m <> [].
Proof.
  unfold errorMessage.
  destruct (Js.includes m (Js.lit "Failed to fetch")); [discriminate|].
  destruct (Js.includes m (Js.lit "API key")); discriminate.
Qed.

(** In a reachable world a handler waiting for the [/analyze] reply means
    the submission is pending, and no other submission is running. *)
Lemma awaiting_analyze (es : list Event) (w : World) (i : nat) :
  run initialWorld es = Some w ->
  nth_error (tasks w) i = Some AwaitAnalyze ->
  loading (ui w) = true
  /\ outstanding (remove_nth i (tasks w)) = 0%nat
  /\ analysis (ui w) = None
  /\ error (ui w) = [].
Proof.
  intros Hr Ht.
  assert (Hsf : singleFlight w).
  { apply (run_singleFlight es initialWorld w); [reflexivity | exact Hr]. }
  pose proof (outstanding_remove_nth _ _ _ Ht) as Ho.
  unfold singleFlight in Hsf. rewrite Ho in Hsf. simpl in Hsf.
  destruct (loading (ui w)) eqn:Hl; [|lia].
  assert (Hpc : pendingClean w).
  { apply (run_invariant pendingClean step_pendingClean es initialWorld w);
      [|exact Hr].
    unfold pendingClean. simpl. discriminate. }
  destruct (Hpc Hl) as (Ha & He & _).
  repeat split; [lia | exact Ha | exact He].
Qed.

(** X12. A successful reply (status 200 to 299, JSON body) to the pending
    submission of a reachable world stores the payload, shows no error,
    clears [loading], issues no request and leaves no submission
    running. *)
Theorem analyze_success
  (es : list Event) (w : World) (i : nat) (st : Z) (data : AnalyzeJson) :
  run initialWorld es = Some w ->
  nth_error (tasks w) i = Some AwaitAnalyze ->
  ok st = true ->
  exists w',
    step w (Deliver i (AnalyzeReply (Responded st (Json data)))) = Some w'
    /\ analysis (ui w') = Some data
    /\ error (ui w') = []
    /\ loading (ui w') = false
    /\ sent w' = sent w
    /\ outstanding (tasks w') = 0%nat.
Proof.
  intros Hr Ht Hok.
  destruct (awaiting_analyze es w i Hr Ht) as (_ & Ho & _ & He).
  eexists. split.
  { simpl. rewrite Ht. simpl. rewrite Hok. simpl. reflexivity. }
  simpl. repeat split; assumption.
Qed.

Lemma analyze_success_witness :
  let data := AnalysisData {| consensus_recommendation := BUY;
                              consensus_confidence := 80 |} in
  exists w w',
    run initialWorld submitTCS = Some w
    /\ step w (Deliver 0 (AnalyzeReply (Responded 200 (Json data)))) = Some w'
    /\ analysis (ui w') = Some data
    /\ error (ui w') = []
    /\ loading (ui w') = false
    /\ sent w' = sent w
    /\ outstanding (tasks w') = 0%nat.
Proof.
  intros data.
  destruct (analyze_success submitTCS _ 0 200 data eq_refl eq_refl eq_refl)
    as [w' H].
  eexists. exists w'. split; [reflexivity | exact H].
Defined.

(** X13. A failed reply to the pending submission of a reachable world
    (no response, a body that is not JSON, or an error status other than
    429) ends the submission at once: [loading] is cleared, an error
    message is shown, no result is on screen, and no request is issued,
    so nothing is retried. *)
Theorem analyze_failure
  (es : list Event) (w : World) (i : nat) (r : Fetched AnalyzeJson) :
  run initialWorld es = Some w ->
  nth_error (tasks w) i = Some AwaitAnalyze ->
  failedReply r = true ->
  exists w',
    step w (Deliver i (AnalyzeReply r)) = Some w'
    /\ analysis (ui w') = None
    /\ error (ui w') <> []
    /\ loading (ui w') = false
    /\ sent w' = sent w
    /\ outstanding (tasks w') = 0%nat.
Proof.
  intros Hr Ht Hf.
  destruct (awaiting_analyze es w i Hr Ht) as (_ & Ho & Ha & _).
  destruct r as [m|st [m|data]]; simpl in Hf.
  - eexists. split; [simpl; rewrite Ht; reflexivity|].
    simpl. repeat split; try assumption. apply errorMessage_nonempty.
  - eexists. split.
    { simpl. rewrite Ht. simpl. reflexivity. }
    destruct (negb (ok st)); simpl; repeat split; try assumption;
      apply errorMessage_nonempty.
  - apply andb_true_iff in Hf. destruct Hf as [Hnok H429].
    apply negb_true_iff in H429.
    eexists. split.
    { simpl. rewrite Ht. simpl. rewrite Hnok, H429. reflexivity. }
    simpl. repeat split; try assumption. apply errorMessage_nonempty.
Qed.

Lemma analyze_failure_witness :
  let r := Responded 500
             (Json (ErrorData (Some (Js.lit "Stock not found")))) in
  exists w w',
    run initialWorld submitTCS = Some w
    /\ step w (Deliver 0 (AnalyzeReply r)) = Some w'
    /\ analysis (ui w') = None
    /\ error (ui w') <> []
    /\ error (ui w') = Js.lit "Analysis error occurred. Stock not found"
    /\ loading (ui w') = false
    /\ sent w' = sent w
    /\ outstanding (tasks w') = 0%nat.
Proof.
  intros r.
  destruct (analyze_failure submitTCS _ 0 r eq_refl eq_refl eq_refl)
    as [w' (Hs & Ha & He & Hl & Hsn & Ho)].
  eexists. exists w'. split; [reflexivity|].
  split; [exact Hs|]. split; [exact Ha|]. split; [exact He|].
  split; [|auto].
  vm_compute in Hs. injection Hs as <-. reflexivity.
Defined.

(** ** Probes and the countdown *)

Lemma ticks_before_expiry (k : nat) :
  forall (n : Z) (w : World),
    countdown (ui w) = n -> Z.of_nat k < n ->
    countdown (ui (ticks k w)) = n - Z.of_nat k
    /\ sent (ticks k w) = sent w
    /\ rateLimit (ui (ticks k w)) = rateLimit (ui w).
Proof.
  induction k as [|k IH]; intros n w Hw Hk.
  - simpl. repeat split. lia.
  - cbn [ticks]. rewrite tick_running by lia.
    destruct (IH (n - 1) (onState (setCountdown (countdown (ui w) - 1)) w))
      as (Hc & Hs & Hr); [simpl; lia | lia |].
    rewrite Hc, Hs, Hr. repeat split. lia.
Qed.

Lemma ticks_add (j k : nat) (w : World) :
  ticks (j + k) w = ticks k (ticks j w).
Proof.
  revert w. induction j as [|j IH]; intros w; simpl; [reflexivity|].
  apply IH.
Qed.

(** X14. A probe that answers "limited" with a positive
    [seconds_remaining] of [n] closes both submission paths and sets the
    countdown to [n], whatever it was before; the next [n - 1] firings of
    the interval issue nothing, and the [n]-th issues the one automatic
    re-probe and leaves the countdown at 0. *)
Theorem limited_probe_starts_countdown
  (st n : Z) (data : RateLimitData) (w : World) :
  is_limited data = true -> seconds_remaining data = Some n -> 0 < n ->
  let w' := onState (checkRateLimit_resume (Responded st (Json data))) w in
  countdown (ui w') = n
  /\ clickAnalyze w' = w'
  /\ (forall key, handleKeyPress key w' = w')
  /\ (forall k, Z.of_nat k < n -> sent (ticks k w') = sent w)
  /\ sent (ticks (Z.to_nat n) w') = sent w ++ [GetRateLimit]
  /\ countdown (ui (ticks (Z.to_nat n) w')) = 0.
Proof.
  intros Hl Hs Hn w'.
  assert (Hc : countdown (ui w') = n).
  { subst w'. simpl. unfold seconds_truthy, seconds_value.
    rewrite Hl, Hs. simpl.
    destruct (Z.eqb_spec n 0); [lia | reflexivity]. }
  assert (Hlim : limited (ui w') = true).
  { subst w'. simpl. unfold seconds_truthy. rewrite Hl, Hs. simpl.
    destruct (Z.eqb_spec n 0); [lia|].
    unfold limited. simpl. exact Hl. }
  split; [exact Hc|].
  split; [apply clickAnalyze_blocked; right; left; exact Hlim|].
  split; [intros key; apply handleKeyPress_blocked; right; left; exact Hlim|].
  split.
  { intros k Hk.
    destruct (ticks_before_expiry k n w' Hc Hk) as (_ & Hsent & _).
    exact Hsent. }
  assert (Hsplit : Z.to_nat n = (Z.to_nat (n - 1) + 1)%nat) by lia.
  rewrite Hsplit, ticks_add.
  destruct (ticks_before_expiry (Z.to_nat (n - 1)) n w' Hc ltac:(lia))
    as (Hc1 & Hs1 & _).
  cbn [ticks]. rewrite tick_expiry by lia.
  simpl. rewrite Hs1. split; reflexivity.
Qed.

Lemma limited_probe_starts_countdown_witness :
  let data := {| is_limited := true;
                 message := Some (Js.lit "Try again later");
                 seconds_remaining := Some 5 |} in
  let w' := onState (checkRateLimit_resume (Responded 200 (Json data)))
              (limitedFor 90) in
  countdown (ui w') = 5
  /\ clickAnalyze w' = w'
  /\ (forall key, handleKeyPress key w' = w')
  /\ (forall k, Z.of_nat k < 5 -> sent (ticks k w') = sent (limitedFor 90))
  /\ sent (ticks (Z.to_nat 5) w') = sent (limitedFor 90) ++ [GetRateLimit]
  /\ countdown (ui (ticks (Z.to_nat 5) w')) = 0.
Proof.
  apply (limited_probe_starts_countdown 200 5
           {| is_limited := true;
              message := Some (Js.lit "Try again later");
              seconds_remaining := Some 5 |}
           (limitedFor 90)); [reflexivity | reflexivity | lia].
Defined.



(** X16. An error status other than 429 with a JSON body ends the
    submission without any request (no rate-limit probe). The message is
    "Analysis error occurred. " followed by the server's detail; when the
    detail is absent or empty it is followed by "Analysis failed"
    instead. *)
Theorem server_error_message
  (w : World) (i : nat) (st : Z) (d : option jsstring) :
  nth_error (tasks w) i = Some AwaitAnalyze ->
  ok st = false -> st <> 429 ->
  exists w',
    step w (Deliver i (AnalyzeReply (Responded st (Json (ErrorData d)))))
    = Some w'
    /\ sent w' = sent w
    /\ tasks w' = remove_nth i (tasks w)
    /\ loading (ui w') = false
    /\ (d = None \/ d = Some [] ->
        error (ui w') = Js.lit "Analysis error occurred. Analysis failed")
    /\ (forall t, d = Some t -> t <> [] ->
        Js.includes t (Js.lit "Failed to fetch") = false ->
        Js.includes t (Js.lit "API key") = false ->
        error (ui w') = Js.lit "Analysis error occurred. " ++ t).
Proof.
  intros Ht Hok H429. apply Z.eqb_neq in H429.
  eexists. split.
  { simpl. rewrite Ht. simpl. rewrite Hok, H429. simpl. reflexivity. }
  simpl. split; [reflexivity|]. split; [reflexivity|].
  split; [reflexivity|]. split.
  - intros [-> | ->]; reflexivity.
  - intros t -> Hne H1 H2.
    destruct t as [|c t]; [congruence|].
    unfold detail_or_default, errorMessage. simpl Js.truthy. cbv iota.
    rewrite H1, H2. reflexivity.
Qed.

Lemma server_error_message_witness :
  let w := analyzeStock (typed (Js.lit "TCS")) in
  exists w',
    step w (Deliver 0 (AnalyzeReply (Responded 500 (Json (ErrorData None)))))
    = Some w'
    /\ sent w' = sent w
    /\ tasks w' = remove_nth 0 (tasks w)
    /\ loading (ui w') = false
    /\ (@None jsstring = None \/ @None jsstring = Some [] ->
        error (ui w') = Js.lit "Analysis error occurred. Analysis failed")
    /\ (forall t, None = Some t -> t <> [] ->
        Js.includes t (Js.lit "Failed to fetch") = false ->
        Js.includes t (Js.lit "API key") = false ->
        error (ui w') = Js.lit "Analysis error occurred. " ++ t).
Proof.
  apply (server_error_message (analyzeStock (typed (Js.lit "TCS"))) 0 500 None).
  - reflexivity.
  - reflexivity.
  - lia.
Defined.
